(** * Raster delineation inside one unit catchment: a shallow embedding

    The development follows [py/merit_detailed.py]
    ([get_subdivided_merit_polygon]) and [py/fast_dissolve.py]
    ([close_holes]).

    Conventions of the embedding.
    - A Python [float] on which the source itself computes (bounding box,
      latitude, longitude, the half-pixel constant) is a binary64 value of
      [PrimFloat]; its arithmetic is the IEEE arithmetic of the source.
    - Areas come out of shapely and are only compared; they are exact
      rationals ([Q]).  Distances inside the snapping routine are exact
      squared Euclidean distances between the values of the coordinates.
    - Raster cells are integers ([Z]); a raster is a list of rows.
    - A raised exception is a value of [py_exception]; a computation that
      can raise returns a [result].
    - Calls into pysheds, shapely, rasterio and the file system are the
      fields of the interfaces [Shapely] and [Pysheds]; every theorem holds
      for all their implementations unless it names one.
    - Diagnostic printing and plotting ([VERBOSE], [PLOTS]) have no effect on
      the result and are left out. *)

From Stdlib Require Import ZArith QArith Qabs Qreals Floats Reals String Lia.
From Stdlib Require Uint63.
From stdpp Require Import prelude pretty.

Set Warnings "-inexact-float".
#[local] Open Scope string_scope.

(** ** Exceptions and results *)

(** The exception classes the source can meet.  [Exception] is the class the
    source raises itself (missing raster files); [IndexError] and
    [ValueError] come from indexing and from [np.argmax]; [LibraryError] is
    any exception raised inside an external call, named by its class. *)
Inductive py_exception : Type :=
| Exception (msg : string)
| IndexError
| ValueError
| LibraryError (cls : string).

Definition exc_class (e : py_exception) : string :=
  match e with
  | Exception _ => "Exception"
  | IndexError => "IndexError"
  | ValueError => "ValueError"
  | LibraryError cls => cls
  end.

Inductive result (A : Type) : Type :=
| Ok (a : A)
| Raise (e : py_exception).
Arguments Ok {A} a.
Arguments Raise {A} e.

Definition bind {A B : Type} (m : result A) (k : A -> result B) : result B :=
  match m with
  | Ok a => k a
  | Raise e => Raise e
  end.

Notation "x <- e ;; k" := (bind e (fun x => k))
  (at level 100, e at next level, k at level 200, right associativity).

(** [l[i]] on a Python list or a numpy axis, for an index that is not
    negative. *)
Definition getitem {A : Type} (l : list A) (i : nat) : result A :=
  match l !! i with
  | Some a => Ok a
  | None => Raise IndexError
  end.

(** A loop [for x in xs: s = body(x, s)] whose body can raise. *)
Fixpoint for_each {X S : Type} (body : X -> S -> result S) (xs : list X) (s : S)
  : result S :=
  match xs with
  | [] => Ok s
  | x :: xs' => s' <- body x s ;; for_each body xs' s'
  end.

(** ** Binary64 arithmetic of the window *)

Module Window.
#[local] Open Scope float_scope.

(** Largest integer below a finite binary64 value, from its mantissa and
    exponent. *)
Definition floorZ (x : float) : option Z :=
  match Prim2SF x with
  | S754_finite s m e =>
      let v := if s then Z.neg m else Z.pos m in
      Some (if (0 <=? e)%Z then (v * 2 ^ e)%Z else (v / 2 ^ (- e))%Z)
  | _ => None
  end.

Definition float_of_Z (z : Z) : float :=
  match z with
  | Z0 => 0
  | Zpos _ => of_uint63 (Uint63.of_Z z)
  | Zneg _ => - of_uint63 (Uint63.of_Z (- z))
  end.

(** [np.floor]: zeros, infinities and NaN are returned as they are; a
    value of magnitude [2^52] or more is already an integer. *)
Definition np_floor (x : float) : float :=
  match floorZ x with
  | Some z => if abs x <? 0x1p52 then float_of_Z z else x
  | None => x
  end.

(** [np.ceil], by the symmetry of the format. *)
Definition np_ceil (x : float) : float := - np_floor (- x).

(** Line 90: [halfpix = 0.0008333333335070341758 / 2]. *)
Definition halfpix : float := 0.0008333333335070341758 / 2.

(** A bounding box [(xmin, ymin, xmax, ymax)]. *)
Definition bbox : Type := float * float * float * float.

(** Lines 99-105: the box rounded down, down, up, up to whole pixels of
    1/1200 degree and moved outward by [halfpix]. *)
Definition align_bounds (bounds : bbox) : bbox :=
  let '(b0, b1, b2, b3) := bounds in
  (np_floor (b0 * 1200) / 1200 - halfpix,
   np_floor (b1 * 1200) / 1200 - halfpix,
   np_ceil (b2 * 1200) / 1200 + halfpix,
   np_ceil (b3 * 1200) / 1200 + halfpix).

(** The bounds as the specification words them: the same rounding with an
    offset [h]. *)
Definition spec_bounds (h : float) (bounds : bbox) : bbox :=
  let '(b0, b1, b2, b3) := bounds in
  (np_floor (b0 * 1200) / 1200 - h,
   np_floor (b1 * 1200) / 1200 - h,
   np_ceil (b2 * 1200) / 1200 + h,
   np_ceil (b3 * 1200) / 1200 + h).

(** Half of one pixel width at a resolution of 1/1200 degree. *)
Definition half_pixel_1200 : float := (1 / 1200) / 2.

(** The bounding box of the window rounding scenario. *)
Definition scenario : bbox := (10.0003, 20.0004, 10.01, 20.01).

End Window.

(** ** Shapely geometries *)

Definition point : Type := float * float.
Definition ring : Type := list point.

(** A shapely [Polygon]: an exterior ring and a list of interior rings. *)
Record Polygon : Type := mkPolygon {
  exterior : ring;
  interiors : list ring
}.

(** What [geom_type] tells apart: ['Polygon'] and ['MultiPolygon']. *)
Inductive Geometry : Type :=
| GeomPolygon (poly : Polygon)
| GeomMultiPolygon (geoms : list Polygon).

(** The properties and operations of shapely that the source calls. *)
Class Shapely : Type := {
  area : Polygon -> Q;
  bounds : Polygon -> Window.bbox;
  unary_union : list Polygon -> result Geometry
}.

(** [a > b] on exact values. *)
Definition Qgt_bool (a b : Q) : bool := negb (Qle_bool a b).

(** [np.argmax] of a list: the index of the first occurrence of the largest
    element, [ValueError] on an empty list. *)
Fixpoint argmax_from (best_i : nat) (best : Q) (i : nat) (l : list Q) : nat :=
  match l with
  | [] => best_i
  | x :: l' =>
      if Qgt_bool x best
      then argmax_from i x (S i) l'
      else argmax_from best_i best (S i) l'
  end.

Definition np_argmax (l : list Q) : result nat :=
  match l with
  | [] => Raise ValueError
  | x :: l' => Ok (argmax_from 0 x 1 l')
  end.

Section Parts.
Context `{Shapely}.

(** merit_detailed.py lines 74-78 and fast_dissolve.py lines 48-52: a
    polygon is kept; of a multipolygon the part
    [Polygons_multi[np.argmax([polygon.area ...])]] is kept. *)
Definition largest_part (catchment_poly : Geometry) : result Polygon :=
  match catchment_poly with
  | GeomPolygon poly => Ok poly
  | GeomMultiPolygon geoms =>
      let Polygons_multi := geoms in
      k <- np_argmax (map area Polygons_multi) ;;
      getitem Polygons_multi k
  end.

(** ** fast_dissolve.py: [close_holes] *)

(** Lines 62-67: the loop that collects the holes to keep. *)
Definition keep_interior (area_max : Q) (list_interiors : list ring) (interior : ring)
  : list ring :=
  let p := mkPolygon interior [] in
  if Qgt_bool (area p) area_max
  then list_interiors ++ [interior]
  else list_interiors.

Definition close_holes (poly : Geometry) (area_max : Q) : result Polygon :=
  poly <- largest_part poly ;;
  if Qeq_bool area_max 0 then
    match interiors poly with
    | _ :: _ => Ok (mkPolygon (exterior poly) [])
    | [] => Ok poly
    end
  else
    let list_interiors := fold_left (keep_interior area_max) (interiors poly) [] in
    Ok (mkPolygon (exterior poly) list_interiors).

(** [series.apply(f)]: [f] on every element in order; the first exception
    ends the call. *)
Fixpoint series_apply {A B : Type} (f : A -> result B) (series : list A)
  : result (list B) :=
  match series with
  | [] => Ok []
  | x :: series' =>
      y <- f x ;;
      ys <- series_apply f series' ;;
      Ok (y :: ys)
  end.

(** Lines 83-85: [df.geometry.apply(lambda p: close_holes(p, area_max))],
    on the geometry column of the frame. *)
Definition fill_geopandas (df : list Geometry) (area_max : Q) : result (list Polygon) :=
  let filled := series_apply (fun p => close_holes p area_max) df in
  filled.

End Parts.

(** ** The pysheds grid *)

(** A numpy 2-D array of integers, by rows. *)
Definition raster : Type := list (list Z).

(** [a[i, j]] and [a[i, j] = v] for indices that are not negative. *)
Definition getitem2 {A : Type} (a : list (list A)) (i j : nat) : result A :=
  row <- getitem a i ;; getitem row j.

(** The cell [(i, j)] of an array, if it has one. *)
Definition lookup2 {A : Type} (a : list (list A)) (i j : nat) : option A :=
  match a !! i with
  | Some row => row !! j
  | None => None
  end.

Definition setitem2 {A : Type} (a : list (list A)) (i j : nat) (v : A)
  : result (list (list A)) :=
  row <- getitem a i ;;
  _ <- getitem row j ;;
  Ok (<[i := <[j := v]> row]> a).

(** The state of a pysheds [Grid] that the source reads or writes:
    [shape], the affine map from a cell (row, column) to its coordinate
    (x, y), and the named data sets. *)
Record Grid : Type := mkGrid {
  shape : nat * nat;
  cell_xy : nat -> nat -> point;
  fdir : raster;
  mymask : raster;
  acc : raster;
  catch : raster
}.

Definition set_mymask (g : Grid) (r : raster) : Grid :=
  mkGrid (shape g) (cell_xy g) (fdir g) r (acc g) (catch g).
Definition set_acc (g : Grid) (r : raster) : Grid :=
  mkGrid (shape g) (cell_xy g) (fdir g) (mymask g) r (catch g).

(** One polygonized shape: the GeoJSON-like mapping with its
    ['coordinates'], a list of rings. *)
Record Shape : Type := mkShape { coordinates : list ring }.

(** The polygon that line 307 builds from a shape: its first ring as the
    exterior, no interior ring. *)
Definition exterior_of_shape (sv : Shape * Z) (p : Polygon) : Prop :=
  exists r rest, coordinates sv.1 = r :: rest /\ p = mkPolygon r [].

(** The configuration constants of [config.py] that the source reads. *)
Record Config : Type := mkConfig {
  MERIT_FDIR_DIR : string;
  MERIT_ACCUM_DIR : string
}.

(** The calls into pysheds and the file system.  Each can raise.
    [snap_fault] is the exception with which the library's [snap_to_mask]
    ends on a mask that has no true cell. *)
Class Pysheds : Type := {
  isfile : string -> bool;
  from_raster : string -> Window.bbox -> result Grid;
  rasterize : Grid -> Geometry -> result raster;
  read_raster : string -> Window.bbox -> Grid -> result Grid;
  clip_to : string -> Grid -> result Grid;
  snap_fault : py_exception;
  catchment : Grid -> float -> float -> list Z -> Z -> result Grid;
  view : string -> Grid -> result raster;
  polygonize : Grid -> result (list (Shape * Z))
}.

(** A raster has a cell at every index of an [m] by [n] grid. *)
Definition covers (m n : nat) (a : raster) : Prop :=
  forall i j, (i < m)%nat -> (j < n)%nat -> is_Some (lookup2 a i j).

(** What the masking loops index: every cell of the [m] by [n] grid in the
    mask, and in the accumulation array the cells whose mask value is 0. *)
Definition maskable (m n : nat) (mask a : raster) : Prop :=
  forall i j, (i < m)%nat -> (j < n)%nat ->
    exists v, lookup2 mask i j = Some v /\ (v = 0%Z -> is_Some (lookup2 a i j)).

(** An array of [s.1] rows of [s.2] cells each. *)
Definition has_shape (s : nat * nat) (a : raster) : Prop :=
  length a = s.1 /\ Forall (fun row => length row = s.2) a.

(** ** Masking the accumulation raster (lines 194-198) *)

(** The body of the inner loop: [if int(grid.mymask[i, j]) == 0:
    grid.acc[i, j] = 0]. *)
Definition mask_cell (mask : raster) (i j : nat) (a : raster) : result raster :=
  v <- getitem2 mask i j ;;
  if (v =? 0)%Z then setitem2 a i j 0%Z else Ok a.

(** The inner loop [for j in range(0, n)] on row [i]. *)
Definition mask_row (n : nat) (mask : raster) (i : nat) (a : raster) : result raster :=
  for_each (fun j a => mask_cell mask i j a) (seq 0 n) a.

(** The outer loop [for i in range(0, m)]. *)
Definition mask_accumulation (m n : nat) (mask : raster) (a : raster) : result raster :=
  for_each (mask_row n mask) (seq 0 m) a.

(** ** Snapping the pour point (lines 223-236) *)

(** Lines 223-228. *)
Definition numpixels (bSingleCatchment : bool) : Z :=
  if bSingleCatchment then 50%Z else 2000%Z.

(** Line 234: [streams = grid.acc > numpixels], elementwise. *)
Definition stream_mask (a : raster) (T : Z) : list (list bool) :=
  map (map (fun v => (T <? v)%Z)) a.

(** The exact value of a binary64 coordinate (0 where it has none). *)
Definition Qval (x : float) : Q :=
  match Prim2SF x with
  | S754_finite s m e =>
      let v := if s then Z.neg m else Z.pos m in
      if (0 <=? e)%Z then inject_Z (v * 2 ^ e) else (v # (2 ^ Z.to_pos (- e)))%Q
  | _ => 0%Q
  end.

(** Squared Euclidean distance between two coordinates. *)
Definition dist2 (p q : point) : Q :=
  let dx := (Qval p.1 - Qval q.1)%Q in
  let dy := (Qval p.2 - Qval q.2)%Q in
  (dx * dx + dy * dy)%Q.

(** The cells at which a mask is true, in the order of [mask.ravel()]. *)
Definition cells_of_row (i : nat) (row : list bool) : list (nat * nat) :=
  map (fun j => (i, j)) (filter (fun j => row !! j = Some true) (seq 0 (length row))).

Definition true_cells (mask : list (list bool)) : list (nat * nat) :=
  concat (imap cells_of_row mask).

(** Euclidean distance between two coordinates. *)
Definition euclidean_distance (p q : point) : R := R_sqrt.sqrt (Q2R (dist2 p q)).

(** The candidate nearest to [xy], the earlier one on a tie. *)
Fixpoint nearest (xy_of : nat * nat -> point) (xy : point) (best : nat * nat)
    (cands : list (nat * nat)) : nat * nat :=
  match cands with
  | [] => best
  | c :: cands' =>
      if Qgt_bool (dist2 (xy_of best) xy) (dist2 (xy_of c) xy)
      then nearest xy_of xy c cands'
      else nearest xy_of xy best cands'
  end.

(** Modelled from the spec: pysheds' [Grid.snap_to_mask] is library code and
    is not under src/.  Section 4.4: among all stream cells of the window
    select the one minimizing the Euclidean distance to the input
    coordinate; return its coordinate and the achieved distance (here its
    exact square, which the source discards). *)
Definition nearest_stream_cell (g : Grid) (mask : list (list bool)) (xy : point)
  : option (nat * nat) :=
  match true_cells mask with
  | [] => None
  | c :: cands => Some (nearest (fun c => cell_xy g c.1 c.2) xy c cands)
  end.

(** Modelled from the spec: the call [grid.snap_to_mask(streams, xy)].  With
    a stream cell it returns as section 4.4 says; without one the library
    has nothing to return and ends with its own exception, [snap_fault]. *)
Definition snap_to_mask `{Pysheds} (g : Grid) (mask : list (list bool)) (xy : point)
  : result (point * Q) :=
  match nearest_stream_cell g mask xy with
  | None => Raise snap_fault
  | Some c => let p := cell_xy g c.1 c.2 in Ok (p, dist2 p xy)
  end.

(** ** Cells and geometries *)

(** The edge from [p] to [q] crosses the half-line that leaves [pt] towards
    larger x. *)
Definition crosses (pt p q : point) : bool :=
  let x := Qval pt.1 in
  let y := Qval pt.2 in
  if Bool.eqb (Qgt_bool (Qval p.2) y) (Qgt_bool (Qval q.2) y) then false
  else Qgt_bool ((Qval q.1 - Qval p.1) * (y - Qval p.2) / (Qval q.2 - Qval p.2)
                 + Qval p.1)%Q x.

Fixpoint crossings (pt : point) (r : ring) : nat :=
  match r with
  | p :: (q :: _) as r' => ((if crosses pt p q then 1 else 0) + crossings pt r')%nat
  | _ => 0%nat
  end.

(** A coordinate lies in the area that a closed ring encloses: the half-line
    crosses the ring an odd number of times. *)
Definition inside_ring (r : ring) (pt : point) : bool := Nat.odd (crossings pt r).

(** A coordinate lies in a polygon: in its exterior ring and in none of its
    holes; in a multipolygon: in one of its parts. *)
Definition polygon_covers (p : Polygon) (pt : point) : bool :=
  inside_ring (exterior p) pt && negb (existsb (fun h => inside_ring h pt) (interiors p)).

Definition geometry_covers (g : Geometry) (pt : point) : bool :=
  match g with
  | GeomPolygon p => polygon_covers p pt
  | GeomMultiPolygon geoms => existsb (fun p => polygon_covers p pt) geoms
  end.

(** Modelled from the spec: the rasterizer behind [grid.rasterize] is library
    code and is not under src/.  Section 4.2: it converts the polygon into a
    boolean raster aligned to the window; a cell is marked when the geometry
    covers the coordinate of the cell. *)
Definition rasterize_centres (g : Grid) (geom : Geometry) : raster :=
  map (fun i => map (fun j => if geometry_covers geom (cell_xy g i j) then 1%Z else 0%Z)
                    (seq 0 (shape g).2))
      (seq 0 (shape g).1).

(** A rasterizer that marks no cell whose coordinate the geometry does not
    cover. *)
Definition marks_covered_cells `{Pysheds} : Prop :=
  forall g geom mask i j v,
    rasterize g geom = Ok mask -> lookup2 mask i j = Some v -> v <> 0%Z ->
    geometry_covers geom (cell_xy g i j) = true.

(** ** merit_detailed.py: [get_subdivided_merit_polygon] *)

(** What a call hands back: the tuple [(poly or None, float, float)], or an
    exception. *)
Definition outcome : Type := result (option Geometry * float * float).

Section Delineation.
Context `{Shapely} `{Pysheds} (config : Config).

(** Line 156. *)
Definition dirmap : list Z := [64; 128; 1; 2; 4; 8; 16; 32]%Z.

Definition fdir_fname (basin : Z) : string :=
  MERIT_FDIR_DIR config +:+ "/flowdir" +:+ pretty basin +:+ ".tif".
Definition accum_fname (basin : Z) : string :=
  MERIT_ACCUM_DIR config +:+ "/accum" +:+ pretty basin +:+ ".tif".

(** The polygon handed to the rasterizer (lines 128-137): the exterior ring
    of the catchment polygon alone, wrapped as a multipolygon. *)
Definition rasterizer_input (catchment_poly : Polygon) : Geometry :=
  let poly := catchment_poly in
  let filled_poly := mkPolygon (exterior poly) [] in
  GeomMultiPolygon [filled_poly].

(** Lines 72-198: from the catchment polygon to the grid whose accumulation
    has been masked. *)
Definition masked_grid (basin : Z) (catchment_poly : Geometry) : result Grid :=
  catchment_poly <- largest_part catchment_poly ;;
  let bounds_list := bounds catchment_poly in
  let bounding_box := Window.align_bounds bounds_list in
  if negb (isfile (fdir_fname basin)) then
    Raise (Exception ("Could not find flow flow direction raster: " +:+ fdir_fname basin))
  else
  grid <- from_raster (fdir_fname basin) bounding_box ;;
  let multi_poly := rasterizer_input catchment_poly in
  mask <- rasterize grid multi_poly ;;
  let grid := set_mymask grid mask in
  if negb (isfile (accum_fname basin)) then
    Raise (Exception ("Could not find accumulation raster: " +:+ accum_fname basin))
  else
  grid <- read_raster (accum_fname basin) bounding_box grid ;;
  grid <- clip_to "mymask" grid ;;
  let '(m, n) := shape grid in
  a <- mask_accumulation m n (mymask grid) (acc grid) ;;
  Ok (set_acc grid a).

(** Lines 223-236: the threshold, the stream mask and the snap. *)
Definition snap_pour_point (grid : Grid) (lat lng : float) (bSingleCatchment : bool)
  : result (point * Q) :=
  let streams := stream_mask (acc grid) (numpixels bSingleCatchment) in
  let xy := (lng, lat) in
  snap_to_mask grid streams xy.

(** Line 307: [Polygon([[p[0], p[1]] for p in pysheds_polygon['coordinates'][0]])]. *)
Definition shape_to_polygon (pysheds_polygon : Shape) : result Polygon :=
  ring0 <- getitem (coordinates pysheds_polygon) 0 ;;
  Ok (mkPolygon (map (fun p : point => (p.1, p.2)) ring0) []).

(** Lines 300-308: one turn of the loop over the shapes. *)
Definition collect_shape (sv : Shape * Z) (st : list Polygon * nat)
  : result (list Polygon * nat) :=
  let '(shapely_polygons, shape_count) := st in
  let shape_count := S shape_count in
  shapely_polygon <- shape_to_polygon sv.1 ;;
  Ok ((shapely_polygons ++ [shapely_polygon])%list, shape_count).

(** Lines 240-253: the body of the [try]. *)
Definition try_catchment (grid : Grid) (lng_snap lat_snap : float) : result Grid :=
  grid <- catchment grid lng_snap lat_snap dirmap 15000%Z ;;
  grid <- clip_to "catch" grid ;;
  _ <- view "catch" grid ;;
  Ok grid.

(** Lines 240-317. *)
Definition delineate (grid : Grid) (lng_snap lat_snap : float) : outcome :=
  match try_catchment grid lng_snap lat_snap with
  | Raise _ => Ok (None, lng_snap, lat_snap)
  | Ok grid =>
      shapes <- polygonize grid ;;
      let lng_snap := (lng_snap + Window.halfpix)%float in
      let lat_snap := (lat_snap - Window.halfpix)%float in
      st <- for_each collect_shape shapes ([], 0) ;;
      let '(shapely_polygons, shape_count) := st in
      if (1 <? shape_count)%nat then
        shapely_polygon <- unary_union shapely_polygons ;;
        Ok (Some shapely_polygon, lat_snap, lng_snap)
      else
        shapely_polygon <- getitem shapely_polygons 0 ;;
        Ok (Some (GeomPolygon shapely_polygon), lat_snap, lng_snap)
  end.

Definition get_subdivided_merit_polygon (wid : string) (basin : Z) (lat lng : float)
    (catchment_poly : Geometry) (bSingleCatchment : bool) : outcome :=
  grid <- masked_grid basin catchment_poly ;;
  snapped <- snap_pour_point grid lat lng bSingleCatchment ;;
  let '((lng_snap, lat_snap), dist) := snapped in
  delineate grid lng_snap lat_snap.

End Delineation.

(** ** A small concrete world

    A 3 by 3 window, used to run the definitions on explicit inputs. *)

Module Toy.

(** Shoelace sum of a ring over the exact values of its vertices. *)
Fixpoint shoelace (r : ring) : Q :=
  match r with
  | p :: (q :: _) as r' =>
      (Qval p.1 * Qval q.2 - Qval q.1 * Qval p.2 + shoelace r')%Q
  | _ => 0%Q
  end.

Definition ring_area (r : ring) : Q := Qabs (shoelace r / 2).

Definition fmin (a b : float) : float := if (b <? a)%float then b else a.
Definition fmax (a b : float) : float := if (a <? b)%float then b else a.

Definition ring_bounds (r : ring) : Window.bbox :=
  match r with
  | [] => (nan, nan, nan, nan)
  | p :: r' =>
      fold_left (fun '(x0, y0, x1, y1) (q : point) =>
                   (fmin x0 q.1, fmin y0 q.2, fmax x1 q.1, fmax y1 q.2))
                r' (p.1, p.2, p.1, p.2)
  end.

#[local] Instance shapely : Shapely := {|
  area p := (ring_area (exterior p)
             - fold_right (fun r s => (ring_area r + s)%Q) 0%Q (interiors p))%Q;
  bounds p := ring_bounds (exterior p);
  unary_union polys := Ok (GeomMultiPolygon polys)
|}.

Definition of_nat (n : nat) : float := of_uint63 (Uint63.of_Z (Z.of_nat n)).

(** Cell (row i, column j) sits at x = 10 + j/2, y = 20 - i/2. *)
Definition xy_of_cell (i j : nat) : point :=
  ((10 + of_nat j / 2)%float, (20 - of_nat i / 2)%float).

Definition fdir0 : raster := [[2; 4; 8]; [1; 4; 16]; [64; 0; 32]]%Z.
Definition mask0 : raster := [[0; 1; 1]; [1; 1; 1]; [0; 1; 0]]%Z.
Definition accum0 : raster := [[900; 10; 60]; [5; 3000; 70]; [4000; 20; 1]]%Z.
Definition accum_low : raster := [[900; 10; 40]; [5; 30; 50]; [4000; 20; 1]]%Z.

Definition grid0 : Grid := mkGrid (3, 3) xy_of_cell fdir0 [] [] [].

(** The grid after masking: the cells (0, 0), (2, 0) and (2, 2) lie outside
    the mask and hold 0. *)
Definition masked0 : Grid :=
  mkGrid (3, 3)%nat xy_of_cell fdir0 mask0
         [[0; 10; 60]; [5; 3000; 70]; [0; 20; 0]]%Z [].

(** The grid after masking [accum_low]: no cell is above 50. *)
Definition masked_low : Grid :=
  mkGrid (3, 3)%nat xy_of_cell fdir0 mask0
         [[0; 10; 40]; [5; 30; 50]; [0; 20; 0]]%Z [].

Definition square (x y w : float) : ring :=
  [(x, y); ((x + w)%float, y); ((x + w)%float, (y + w)%float);
   (x, (y + w)%float); (x, y)].

Definition shape0 : Shape := mkShape [square 10 19 1].
Definition shape1 : Shape := mkShape [square 11 19 0.5].

(** A world with the accumulation raster [a] on disk, in which the
    traversal raises when [catchment_fails] and polygonizing yields
    [shapes].  A snap on a mask without a true cell ends as the indexing of
    an empty coordinate array does, with [IndexError]. *)
Definition pysheds (a : raster) (catchment_fails : bool) (shapes : list (Shape * Z))
  : Pysheds := {|
  isfile _ := true;
  from_raster _ _ := Ok grid0;
  rasterize _ _ := Ok mask0;
  read_raster _ _ g := Ok (set_acc g a);
  clip_to _ g := Ok g;
  snap_fault := IndexError;
  catchment g _ _ _ _ :=
    if catchment_fails then Raise (LibraryError "RecursionError") else Ok g;
  view _ g := Ok (catch g);
  polygonize _ := Ok shapes
|}.

Definition config : Config := mkConfig "data/flowdir" "data/accum".

(** The world [pysheds a false shapes] with the file system [files]. *)
Definition pysheds_on (files : string -> bool) (a : raster) (shapes : list (Shape * Z))
  : Pysheds := {|
  isfile := files;
  from_raster _ _ := Ok grid0;
  rasterize _ _ := Ok mask0;
  read_raster _ _ g := Ok (set_acc g a);
  clip_to _ g := Ok g;
  snap_fault := IndexError;
  catchment g _ _ _ _ := Ok g;
  view _ g := Ok (catch g);
  polygonize _ := Ok shapes
|}.

(** A file system that holds the flow direction raster of basin 11 only. *)
Definition only_flowdir (fname : string) : bool :=
  String.eqb fname "data/flowdir/flowdir11.tif".

(** A part that lies in the hole of [donut], around the coordinate of cell
    (1, 1). *)
Definition island : Polygon := mkPolygon (square 10.375 19.375 0.25) [].

(** The world [pysheds a false shapes] with the rasterizer
    [rasterize_centres]. *)
Definition pysheds_centres (a : raster) (shapes : list (Shape * Z)) : Pysheds := {|
  isfile _ := true;
  from_raster _ _ := Ok grid0;
  rasterize g geom := Ok (rasterize_centres g geom);
  read_raster _ _ g := Ok (set_acc g a);
  clip_to _ g := Ok g;
  snap_fault := IndexError;
  catchment g _ _ _ _ := Ok g;
  view _ g := Ok (catch g);
  polygonize _ := Ok shapes
|}.

(** The world [pysheds a false []] in which polygonizing raises. *)
Definition pysheds_unpolygonized (a : raster) : Pysheds := {|
  isfile _ := true;
  from_raster _ _ := Ok grid0;
  rasterize _ _ := Ok mask0;
  read_raster _ _ g := Ok (set_acc g a);
  clip_to _ g := Ok g;
  snap_fault := IndexError;
  catchment g _ _ _ _ := Ok g;
  view _ g := Ok (catch g);
  polygonize _ := Raise (LibraryError "ValueError")
|}.

(** Shapely with a [unary_union] that raises. *)
Definition shapely_disunited : Shapely := {|
  area := @area shapely;
  bounds := @bounds shapely;
  unary_union _ := Raise (LibraryError "TopologicalError")
|}.

(** A shape with two rings and a shape with none. *)
Definition shape_holed : Shape := mkShape [square 10 19 1; square 10.25 19.25 0.5].
Definition shape_empty : Shape := mkShape [].

(** A catchment polygon with one hole, and a two-part multipolygon. *)
Definition hole : ring := square 10.25 19.25 0.5.
Definition donut : Polygon := mkPolygon (square 10 19 1) [hole].
Definition islet : Polygon := mkPolygon (square 12 19 0.25) [].

(** [get_subdivided_merit_polygon] in this world. *)
Definition run (a : raster) (catchment_fails : bool) (shapes : list (Shape * Z))
    (lat lng : float) (bSingleCatchment : bool) : outcome :=
  @get_subdivided_merit_polygon shapely (pysheds a catchment_fails shapes) config
    "w1" 11%Z lat lng (GeomPolygon donut) bSingleCatchment.

End Toy.

(** * Properties *)

#[local] Close Scope string_scope.

(** ** Shared lemmas *)

Lemma Qgt_bool_true (a b : Q) : Qgt_bool a b = true <-> (b < a)%Q.
Proof.
  unfold Qgt_bool. rewrite negb_true_iff.
  destruct (Qle_bool a b) eqn:E; split; intros Hlt; try done.
  - apply Qle_bool_iff in E. exfalso. exact (Qlt_not_le _ _ Hlt E).
  - apply Qnot_le_lt. intros Hle. apply Qle_bool_iff in Hle. congruence.
Qed.

Lemma Qgt_bool_false (a b : Q) : Qgt_bool a b = false <-> (a <= b)%Q.
Proof.
  unfold Qgt_bool. rewrite negb_false_iff. apply Qle_bool_iff.
Qed.

Lemma bind_Ok {A B : Type} (m : result A) (k : A -> result B) (b : B) :
  bind m k = Ok b -> exists a, m = Ok a /\ k a = Ok b.
Proof. destruct m as [a|e]; simpl; [eauto | discriminate]. Qed.

(** ** The window bounds (C3) *)

Module WindowFacts.
Import Window.
#[local] Open Scope float_scope.

(** [np.floor] and [np.ceil] on a few values, signed zeros included, and
    the product that decides the upper latitude of the scenario: in binary64
    [20.01 * 1200] lies above 24012 and is rounded up to 24013. *)
Example np_floor_ceil_values :
  np_floor 12000.36 = 12000 /\ np_ceil 12000.36 = 12001
  /\ np_floor (-2.5) = -3 /\ np_ceil (-2.5) = -2
  /\ np_floor 0.5 = 0 /\ np_ceil (-0.5) = -0
  /\ np_ceil 12012 = 12012
  /\ 20.01 * 1200 = 24012.000000000004
  /\ np_ceil (20.01 * 1200) = 24013.
Proof. repeat split; by vm_compute. Qed.

(** C3, counterexample: on the box (10.0003, 20.0004, 10.01, 20.01) the
    bounds the code computes are not those of the formula with an offset of
    exactly half of 1/1200 degree. *)
Lemma bounds_offset_is_not_half_of_1200th :
  align_bounds scenario <> spec_bounds half_pixel_1200 scenario.
Proof.
  intros Heq.
  apply (f_equal (fun b : bbox => b.1.1.1 =? 9.999583333333334)) in Heq.
  vm_compute in Heq. discriminate Heq.
Qed.

(** C3, amended: for every bounding box the aligned bounds are the
    floor/ceil formula at 1200 pixels per degree, evaluated in binary64,
    with the offset [halfpix = 0.0008333333335070341758 / 2]; this offset is
    not half of 1/1200; on the scenario box the bounds are the literal
    values below. *)
Theorem align_bounds_formula (b : bbox) :
  align_bounds b = spec_bounds halfpix b
  /\ halfpix = 0.0008333333335070341758 / 2
  /\ halfpix = 0.00041666666675351709
  /\ half_pixel_1200 = 0.00041666666666666669
  /\ halfpix <> half_pixel_1200
  /\ align_bounds scenario
     = (9.999583333333247, 19.999583333333245, 10.010416666666753, 20.01125000000009).
Proof.
  split; [by destruct b as [[[b0 b1] b2] b3] |].
  split; [reflexivity |].
  split; [by vm_compute |].
  split; [by vm_compute |].
  split; [| by vm_compute].
  intros Heq. apply (f_equal (fun h => h =? 0.00041666666666666669)) in Heq.
  vm_compute in Heq. discriminate Heq.
Qed.

End WindowFacts.

(** ** Largest part and holes (C6, C7) *)

Lemma argmax_from_correct (l : list Q) : forall (pre : list Q) (best_i : nat) (best : Q),
  pre !! best_i = Some best ->
  (forall x, x ∈ pre -> (x <= best)%Q) ->
  (forall j x, (j < best_i)%nat -> pre !! j = Some x -> (x < best)%Q) ->
  exists m, (pre ++ l) !! argmax_from best_i best (length pre) l = Some m
    /\ (forall x, x ∈ pre ++ l -> (x <= m)%Q)
    /\ (forall j x, (j < argmax_from best_i best (length pre) l)%nat ->
                    (pre ++ l) !! j = Some x -> (x < m)%Q).
Proof.
  induction l as [|x l IH]; intros pre best_i best Hbest Hmax Hfirst.
  - simpl. rewrite app_nil_r. eauto.
  - simpl.
    assert (Hlen : length (pre ++ [x]) = S (length pre)).
    { rewrite length_app. simpl. lia. }
    replace (pre ++ x :: l) with ((pre ++ [x]) ++ l) by (by rewrite <- app_assoc).
    rewrite <- Hlen.
    destruct (Qgt_bool x best) eqn:Hgt.
    + apply Qgt_bool_true in Hgt.
      apply IH.
      * rewrite lookup_app_r by lia. by rewrite Nat.sub_diag.
      * intros y Hy. apply elem_of_app in Hy as [Hy | Hy].
        -- apply Qlt_le_weak. eapply Qle_lt_trans; [by apply Hmax | done].
        -- apply list_elem_of_singleton in Hy. subst y. apply Qle_refl.
      * intros j y Hj Hy.
        rewrite lookup_app_l in Hy by lia.
        eapply Qle_lt_trans; [| exact Hgt].
        apply Hmax. by eapply list_elem_of_lookup_2.
    + apply Qgt_bool_false in Hgt.
      apply IH.
      * rewrite lookup_app_l; [done |]. by eapply lookup_lt_Some.
      * intros y Hy. apply elem_of_app in Hy as [Hy | Hy]; [by apply Hmax |].
        apply list_elem_of_singleton in Hy. by subst y.
      * intros j y Hj Hy.
        assert (best_i < length pre)%nat by (by eapply lookup_lt_Some).
        rewrite lookup_app_l in Hy by lia. by eapply Hfirst.
Qed.

(** [np.argmax] returns the first index that holds the maximum. *)
Lemma np_argmax_first_max (l : list Q) :
  l <> [] ->
  exists k m, np_argmax l = Ok k /\ l !! k = Some m
    /\ (forall x, x ∈ l -> (x <= m)%Q)
    /\ (forall j x, (j < k)%nat -> l !! j = Some x -> (x < m)%Q).
Proof.
  destruct l as [|x l]; [done |]. intros _.
  destruct (argmax_from_correct l [x] 0 x) as (m & Hk & Hmax & Hfirst).
  - done.
  - intros y Hy. apply list_elem_of_singleton in Hy. subst y. apply Qle_refl.
  - intros j y Hj. lia.
  - exists (argmax_from 0 x 1 l), m. simpl in *. eauto.
Qed.

Section PartsFacts.
Context `{Shapely}.

Lemma largest_part_multi (geoms : list Polygon) :
  geoms <> [] ->
  exists k p, np_argmax (map area geoms) = Ok k
    /\ geoms !! k = Some p
    /\ largest_part (GeomMultiPolygon geoms) = Ok p
    /\ (forall q, q ∈ geoms -> (area q <= area p)%Q)
    /\ (forall j q, (j < k)%nat -> geoms !! j = Some q -> (area q < area p)%Q).
Proof.
  intros Hne.
  destruct (np_argmax_first_max (map area geoms)) as (k & m & Hk & Hm & Hmax & Hfirst).
  { by destruct geoms. }
  rewrite list_lookup_fmap in Hm.
  destruct (geoms !! k) as [p|] eqn:Hp; [| done].
  simpl in Hm. injection Hm as <-.
  exists k, p. repeat split; try done.
  - simpl. rewrite Hk. simpl. unfold getitem. by rewrite Hp.
  - intros q Hq. apply Hmax. apply list_elem_of_fmap. eauto.
  - intros j q Hj Hq. apply (Hfirst j); [done |].
    rewrite list_lookup_fmap. by rewrite Hq.
Qed.

Lemma keep_interiors_filter (area_max : Q) (l : list ring) : forall kept : list ring,
  fold_left (keep_interior area_max) l kept
  = kept ++ List.filter (fun r => Qgt_bool (area (mkPolygon r [])) area_max) l.
Proof.
  induction l as [|r l IH]; intros kept; simpl.
  - by rewrite app_nil_r.
  - rewrite IH. unfold keep_interior.
    destruct (Qgt_bool (area (mkPolygon r [])) area_max); [| done].
    by rewrite <- app_assoc.
Qed.

(** C7, amended: for every single-part polygon [close_holes] returns a
    polygon with the same exterior ring; when the threshold is not zero its
    holes are exactly the holes of the input whose area is above the
    threshold, unchanged and in their order (every hole of area at most the
    threshold is gone); when the threshold is zero it has no hole at all. *)
Theorem close_holes_threshold (poly : Polygon) (area_max : Q) :
  exists r, close_holes (GeomPolygon poly) area_max = Ok r
    /\ exterior r = exterior poly
    /\ ((area_max == 0)%Q -> interiors r = [])
    /\ (~ (area_max == 0)%Q ->
        interiors r
        = List.filter (fun h => Qgt_bool (area (mkPolygon h [])) area_max) (interiors poly)
        /\ (forall h, h ∈ interiors r
                      <-> h ∈ interiors poly /\ (area_max < area (mkPolygon h []))%Q)).
Proof.
  unfold close_holes. simpl.
  destruct (Qeq_bool area_max 0) eqn:Hz.
  - apply Qeq_bool_iff in Hz.
    destruct (interiors poly) as [|h hs] eqn:Hint; eexists; (split; [reflexivity |]);
      simpl; repeat split; try done.
  - apply Qeq_bool_neq in Hz.
    eexists. split; [reflexivity |]. simpl. split; [done |]. split; [done |].
    intros _. rewrite keep_interiors_filter. simpl. split; [done |].
    intros h. rewrite list_elem_of_In, filter_In, Qgt_bool_true, <- list_elem_of_In.
    done.
Qed.

End PartsFacts.

(** C7, counterexample: with threshold 0 the hole of [Toy.donut], whose
    area 1/4 is above the threshold, is not preserved: the returned polygon
    has no hole. *)
Lemma close_holes_zero_fills_larger_hole :
  ~ (forall r, @close_holes Toy.shapely (GeomPolygon Toy.donut) 0 = Ok r ->
     forall h, h ∈ interiors Toy.donut ->
               (0 < @area Toy.shapely (mkPolygon h []))%Q ->
               h ∈ interiors r).
Proof.
  intros Hclaim.
  specialize (Hclaim (mkPolygon (exterior Toy.donut) []) eq_refl Toy.hole).
  apply (not_elem_of_nil Toy.hole), Hclaim; [by left | by vm_compute].
Qed.

(** A run of [close_holes] with a threshold between the areas of no hole
    and of the hole of [Toy.donut]. *)
Lemma close_holes_threshold_witness :
  exists r, @close_holes Toy.shapely (GeomPolygon Toy.donut) (1 # 8) = Ok r
    /\ exterior r = exterior Toy.donut.
Proof.
  destruct (@close_holes_threshold Toy.shapely Toy.donut (1 # 8)) as (r & Hr & Hext & _).
  exists r. split; [exact Hr | exact Hext].
Defined.

Lemma covers_filled_exterior (r : ring) (pt : point) :
  geometry_covers (GeomMultiPolygon [mkPolygon r []]) pt = inside_ring r pt.
Proof.
  unfold geometry_covers, polygon_covers. simpl.
  by rewrite andb_true_r, orb_false_r.
Qed.

Lemma rasterize_centres_marks (g : Grid) (geom : Geometry) (i j : nat) (v : Z) :
  lookup2 (rasterize_centres g geom) i j = Some v -> v <> 0%Z ->
  geometry_covers geom (cell_xy g i j) = true.
Proof.
  unfold lookup2, rasterize_centres.
  change (map ?f ?l) with (f <$> l). rewrite list_lookup_fmap.
  destruct (seq 0 (shape g).1 !! i) as [i'|] eqn:Hi; simpl; [| done].
  apply lookup_seq in Hi as [-> _].
  change (map ?f ?l) with (f <$> l). rewrite list_lookup_fmap.
  destruct (seq 0 (shape g).2 !! j) as [j'|] eqn:Hj; simpl; [| done].
  apply lookup_seq in Hj as [-> _]. simpl.
  destruct (geometry_covers geom (cell_xy g i j)); [done |].
  by intros [= <-].
Qed.

Section SelectionFacts.
Context `{Shapely} `{Pysheds} (config : Config).

(** The mask of a run: rasterized on the window of the kept part, from the
    exterior ring of the kept part. *)
Lemma masked_grid_rasterizes (basin : Z) (catchment_poly : Geometry) (grid : Grid) :
  masked_grid config basin catchment_poly = Ok grid ->
  exists p g mask,
    largest_part catchment_poly = Ok p
    /\ from_raster (fdir_fname config basin) (Window.align_bounds (bounds p)) = Ok g
    /\ rasterize g (GeomMultiPolygon [mkPolygon (exterior p) []]) = Ok mask.
Proof.
  unfold masked_grid. intros Hrun.
  apply bind_Ok in Hrun as (p & Hp & Hrun).
  destruct (negb (isfile (fdir_fname config basin))); [discriminate |].
  apply bind_Ok in Hrun as (g & Hg & Hrun).
  apply bind_Ok in Hrun as (mask & Hmask & _).
  by exists p, g, mask.
Qed.

(** C6, amended: of a multipolygon with at least one part, both
    [close_holes] and [get_subdivided_merit_polygon] keep exactly one part:
    the part of largest area, the first such part on a tie.  [close_holes]
    returns the exterior ring of that part with the holes of that part
    that the threshold keeps.  [get_subdivided_merit_polygon] runs as on
    that part alone and rasterizes the exterior ring of that part and
    nothing else; with a rasterizer that marks only cells whose coordinate
    the geometry covers, every cell of the mask lies in the area that this
    ring encloses. *)
Theorem largest_part_kept (geoms : list Polygon) :
  geoms <> [] ->
  exists k p,
    geoms !! k = Some p
    /\ (forall q, q ∈ geoms -> (area q <= area p)%Q)
    /\ (forall j q, (j < k)%nat -> geoms !! j = Some q -> (area q < area p)%Q)
    /\ largest_part (GeomMultiPolygon geoms) = Ok p
    /\ (forall area_max,
          exists r, close_holes (GeomMultiPolygon geoms) area_max = Ok r
            /\ exterior r = exterior p
            /\ interiors r
               = if Qeq_bool area_max 0 then []
                 else List.filter (fun h => Qgt_bool (area (mkPolygon h [])) area_max)
                                  (interiors p))
    /\ (forall wid basin lat lng bSingleCatchment,
          get_subdivided_merit_polygon config wid basin lat lng
            (GeomMultiPolygon geoms) bSingleCatchment
          = get_subdivided_merit_polygon config wid basin lat lng
              (GeomPolygon p) bSingleCatchment)
    /\ (forall basin grid,
          masked_grid config basin (GeomMultiPolygon geoms) = Ok grid ->
          exists g mask,
            from_raster (fdir_fname config basin) (Window.align_bounds (bounds p)) = Ok g
            /\ rasterize g (GeomMultiPolygon [mkPolygon (exterior p) []]) = Ok mask
            /\ (marks_covered_cells ->
                forall i j v, lookup2 mask i j = Some v -> v <> 0%Z ->
                              inside_ring (exterior p) (cell_xy g i j) = true)).
Proof.
  intros Hne.
  destruct (largest_part_multi geoms Hne) as (k & p & Hk & Hp & Hsel & Hmax & Hfirst).
  exists k, p. do 4 (split; [done |]). split; [| split].
  - intros area_max. unfold close_holes. rewrite Hsel. simpl.
    destruct (Qeq_bool area_max 0).
    + destruct (interiors p) as [|h hs] eqn:Hint; eexists; (split; [reflexivity |]);
        simpl; by rewrite ?Hint.
    + eexists. split; [reflexivity |]. simpl. split; [done |].
      by rewrite keep_interiors_filter.
  - intros wid basin lat lng b. unfold get_subdivided_merit_polygon, masked_grid.
    by rewrite Hsel.
  - intros basin grid Hrun.
    apply masked_grid_rasterizes in Hrun as (p' & g & mask & Hp' & Hg & Hmask).
    rewrite Hsel in Hp'. injection Hp' as <-.
    exists g, mask. split; [done |]. split; [done |].
    intros Hsound i j v Hv Hnz.
    rewrite <- covers_filled_exterior. by eapply Hsound.
Qed.

End SelectionFacts.

(** The selection on a two-part multipolygon whose second part is the larger
    one, in the world whose rasterizer is [rasterize_centres]. *)
Lemma largest_part_kept_witness :
  [Toy.islet; Toy.donut] <> []
  /\ exists k p,
       [Toy.islet; Toy.donut] !! k = Some p
       /\ @largest_part Toy.shapely (GeomMultiPolygon [Toy.islet; Toy.donut]) = Ok p
       /\ forall area_max,
            exists r, @close_holes Toy.shapely (GeomMultiPolygon [Toy.islet; Toy.donut])
                        area_max = Ok r
              /\ exterior r = exterior p.
Proof.
  assert (Hne : [Toy.islet; Toy.donut] <> []) by discriminate.
  split; [exact Hne |].
  destruct (@largest_part_kept Toy.shapely (Toy.pysheds_centres Toy.accum0 []) Toy.config
              [Toy.islet; Toy.donut] Hne) as (k & p & Hk & _ & _ & Hsel & Hclose & _).
  exists k, p. split; [exact Hk |]. split; [exact Hsel |].
  intros area_max. destruct (Hclose area_max) as (r & Hr & Hext & _).
  exists r. split; [exact Hr | exact Hext].
Defined.

Example largest_part_is_second :
  @largest_part Toy.shapely (GeomMultiPolygon [Toy.islet; Toy.donut]) = Ok Toy.donut
  /\ @largest_part Toy.shapely (GeomMultiPolygon [Toy.donut; Toy.islet; Toy.donut])
     = Ok Toy.donut
  /\ @np_argmax [1; 3; 2; 3]%Q = Ok 1%nat.
Proof. repeat split; by vm_compute. Qed.

(** The rasterizer of [Toy.pysheds_centres] marks only covered cells. *)
Example toy_rasterizer_marks_covered (a : raster) (shapes : list (Shape * Z)) :
  @marks_covered_cells (Toy.pysheds_centres a shapes).
Proof.
  intros g geom mask i j v [= <-]. apply rasterize_centres_marks.
Qed.

(** C6, counterexample: the multipolygon [[donut; island]], whose smaller
    part lies in the hole of the larger one.  The larger part is kept, the
    coordinate of cell (1, 1) lies in the smaller part and not in the kept
    part, and cell (1, 1) is in the mask of the grid that the call masks:
    a cell of a smaller part appears in the resulting mask. *)
Lemma smaller_part_in_hole_is_masked :
  ~ (forall p grid,
       @largest_part Toy.shapely (GeomMultiPolygon [Toy.donut; Toy.island]) = Ok p ->
       @masked_grid Toy.shapely (Toy.pysheds_centres Toy.accum0 []) Toy.config 11%Z
         (GeomMultiPolygon [Toy.donut; Toy.island]) = Ok grid ->
       forall q i j,
         q ∈ [Toy.donut; Toy.island] -> q <> p ->
         polygon_covers q (cell_xy grid i j) = true ->
         lookup2 (mymask grid) i j = Some 0%Z).
Proof.
  intros Hclaim.
  specialize (Hclaim Toy.donut _ eq_refl eq_refl Toy.island 1%nat 1%nat).
  assert (Hmask : Some 1%Z = Some 0%Z); [| discriminate Hmask].
  apply Hclaim.
  - right. by left.
  - discriminate.
  - by vm_compute.
Qed.

(** ** Indexing and loops *)

Lemma getitem_Ok {A : Type} (l : list A) (i : nat) (x : A) :
  getitem l i = Ok x <-> l !! i = Some x.
Proof. unfold getitem. destruct (l !! i); split; intros Heq; congruence. Qed.

Lemma getitem2_Ok {A : Type} (a : list (list A)) (i j : nat) (x : A) :
  getitem2 a i j = Ok x <-> lookup2 a i j = Some x.
Proof.
  unfold getitem2, lookup2, getitem.
  destruct (a !! i) as [row|]; simpl; [| split; discriminate].
  destruct (row !! j); split; intros Heq; congruence.
Qed.

Lemma setitem2_Ok {A : Type} (a a' : list (list A)) (i j : nat) (v : A) :
  setitem2 a i j v = Ok a' ->
  lookup2 a' i j = Some v
  /\ (forall i' j', (i', j') <> (i, j) -> lookup2 a' i' j' = lookup2 a i' j').
Proof.
  unfold setitem2, getitem.
  destruct (a !! i) as [row|] eqn:Hrow; simpl; [| discriminate].
  destruct (row !! j) as [w|] eqn:Hw; simpl; [| discriminate].
  intros [= <-].
  assert (Hi : (i < length a)%nat) by (by eapply lookup_lt_Some).
  assert (Hj : (j < length row)%nat) by (by eapply lookup_lt_Some).
  split.
  - unfold lookup2. rewrite list_lookup_insert_eq by done.
    by apply list_lookup_insert_eq.
  - intros i' j' Hne. unfold lookup2.
    destruct (decide (i' = i)) as [-> | Hi'].
    + rewrite list_lookup_insert_eq by done. rewrite Hrow.
      apply list_lookup_insert_ne. congruence.
    + by rewrite list_lookup_insert_ne.
Qed.

Lemma for_each_app {X S : Type} (body : X -> S -> result S) (l1 l2 : list X) :
  forall s, for_each body (l1 ++ l2) s
            = (s1 <- for_each body l1 s ;; for_each body l2 s1).
Proof.
  induction l1 as [|x l1 IH]; intros s; simpl; [done |].
  destruct (body x s); simpl; [apply IH | done].
Qed.

Lemma for_each_inv {X S : Type} (I : S -> Prop) (body : X -> S -> result S)
    (xs : list X) :
  (forall x s1 s2, x ∈ xs -> body x s1 = Ok s2 -> I s1 -> I s2) ->
  forall s s', for_each body xs s = Ok s' -> I s -> I s'.
Proof.
  induction xs as [|x xs IH]; intros Hstep s s' Hrun Hs; simpl in Hrun.
  - by injection Hrun as <-.
  - apply bind_Ok in Hrun as (s1 & Hx & Hrest).
    eapply IH; [| exact Hrest |].
    + intros y t1 t2 Hy. apply Hstep. by right.
    + eapply Hstep; [by left | exact Hx | exact Hs].
Qed.

Lemma for_each_visit {X S : Type} (body : X -> S -> result S) (xs : list X) (x : X)
    (s s' : S) :
  for_each body xs s = Ok s' -> x ∈ xs ->
  exists pre post s1 s2,
    xs = pre ++ x :: post
    /\ for_each body pre s = Ok s1
    /\ body x s1 = Ok s2
    /\ for_each body post s2 = Ok s'.
Proof.
  intros Hrun Hx.
  apply list_elem_of_split in Hx as (pre & post & ->).
  rewrite for_each_app in Hrun.
  apply bind_Ok in Hrun as (s1 & Hpre & Hrest). simpl in Hrest.
  apply bind_Ok in Hrest as (s2 & Hbody & Hpost).
  by exists pre, post, s1, s2.
Qed.

(** ** The masking loops *)

(** The loops on the toy window: the cells outside the mask, among them
    cell (2, 0) with 4000 upstream cells, are set to 0; an accumulation
    raster smaller than the shape of the grid ends the loops with an
    [IndexError]. *)
Example mask_accumulation_toy :
  mask_accumulation 3 3 Toy.mask0 Toy.accum0
  = Ok [[0; 10; 60]; [5; 3000; 70]; [0; 20; 0]]%Z
  /\ mask_accumulation 3 3 Toy.mask0 [[900; 10; 60]]%Z = Raise IndexError.
Proof. split; reflexivity. Qed.

Lemma mask_cell_spec (mask a a' : raster) (i j : nat) :
  mask_cell mask i j a = Ok a' ->
  exists v, lookup2 mask i j = Some v
    /\ (v = 0%Z -> lookup2 a' i j = Some 0%Z)
    /\ (v <> 0%Z -> a' = a)
    /\ (forall i' j', (i', j') <> (i, j) -> lookup2 a' i' j' = lookup2 a i' j').
Proof.
  unfold mask_cell. intros Hrun.
  apply bind_Ok in Hrun as (v & Hv & Hset).
  apply getitem2_Ok in Hv. exists v. split; [done |].
  destruct (Z.eqb_spec v 0) as [-> | Hne].
  - apply setitem2_Ok in Hset as [Hset Hframe]. by repeat split.
  - injection Hset as <-. by repeat split.
Qed.

Lemma mask_cell_keeps_zero (mask a a' : raster) (i j i' j' : nat) :
  mask_cell mask i j a = Ok a' ->
  lookup2 a i' j' = Some 0%Z -> lookup2 a' i' j' = Some 0%Z.
Proof.
  intros Hrun Hz.
  apply mask_cell_spec in Hrun as (v & _ & Hzero & Hsame & Hframe).
  destruct (decide ((i', j') = (i, j))) as [[= -> ->] | Hne].
  - destruct (decide (v = 0%Z)) as [Hv | Hv]; [by apply Hzero |].
    by rewrite (Hsame Hv).
  - by rewrite Hframe.
Qed.

Lemma mask_row_spec (n : nat) (mask a a' : raster) (i : nat) :
  mask_row n mask i a = Ok a' ->
  (forall j, (j < n)%nat -> exists v, lookup2 mask i j = Some v)
  /\ (forall j, (j < n)%nat -> lookup2 mask i j = Some 0%Z -> lookup2 a' i j = Some 0%Z)
  /\ (forall i' j', lookup2 a i' j' = Some 0%Z -> lookup2 a' i' j' = Some 0%Z)
  /\ (forall i' j', ~ (i' = i /\ (j' < n)%nat /\ lookup2 mask i' j' = Some 0%Z) ->
                    lookup2 a' i' j' = lookup2 a i' j').
Proof.
  unfold mask_row. intros Hrun.
  assert (Hvisit : forall j, (j < n)%nat ->
            exists s1 s2 post, mask_cell mask i j s1 = Ok s2
              /\ for_each (fun j a => mask_cell mask i j a) post s2 = Ok a').
  { intros j Hj.
    destruct (for_each_visit _ _ j _ _ Hrun) as (pre & post & s1 & s2 & _ & _ & Hb & Hp).
    - apply elem_of_seq. lia.
    - by exists s1, s2, post. }
  split; [| split; [| split]].
  - intros j Hj. destruct (Hvisit j Hj) as (s1 & s2 & post & Hb & _).
    apply mask_cell_spec in Hb as (v & Hv & _). eauto.
  - intros j Hj Hm. destruct (Hvisit j Hj) as (s1 & s2 & post & Hb & Hp).
    eapply (for_each_inv (fun s => lookup2 s i j = Some 0%Z)); [| exact Hp |].
    + intros x t1 t2 _ Ht. by apply mask_cell_keeps_zero with (1 := Ht).
    + apply mask_cell_spec in Hb as (v & Hv & Hzero & _).
      apply Hzero. congruence.
  - intros i' j' Hz.
    eapply (for_each_inv (fun s => lookup2 s i' j' = Some 0%Z)); [| exact Hrun | exact Hz].
    intros x t1 t2 _ Ht. by apply mask_cell_keeps_zero with (1 := Ht).
  - intros i' j' Hout.
    eapply (for_each_inv (fun s => lookup2 s i' j' = lookup2 a i' j'));
      [| exact Hrun | done].
    intros x t1 t2 Hx Ht Hkeep.
    apply elem_of_seq in Hx.
    apply mask_cell_spec in Ht as (v & Hv & _ & Hsame & Hframe).
    destruct (decide ((i', j') = (i, x))) as [[= -> ->] | Hne].
    + rewrite Hsame; [done |]. intros ->. apply Hout. repeat split; [lia | done].
    + by rewrite Hframe.
Qed.

Lemma mask_accumulation_spec (m n : nat) (mask a a' : raster) :
  mask_accumulation m n mask a = Ok a' ->
  (forall i j, (i < m)%nat -> (j < n)%nat -> exists v, lookup2 mask i j = Some v)
  /\ (forall i j, (i < m)%nat -> (j < n)%nat ->
                  lookup2 mask i j = Some 0%Z -> lookup2 a' i j = Some 0%Z)
  /\ (forall i j, ~ ((i < m)%nat /\ (j < n)%nat /\ lookup2 mask i j = Some 0%Z) ->
                  lookup2 a' i j = lookup2 a i j).
Proof.
  unfold mask_accumulation. intros Hrun.
  assert (Hvisit : forall i, (i < m)%nat ->
            exists s1 s2 post, mask_row n mask i s1 = Ok s2
              /\ for_each (mask_row n mask) post s2 = Ok a').
  { intros i Hi.
    destruct (for_each_visit _ _ i _ _ Hrun) as (pre & post & s1 & s2 & _ & _ & Hb & Hp).
    - apply elem_of_seq. lia.
    - by exists s1, s2, post. }
  split; [| split].
  - intros i j Hi Hj. destruct (Hvisit i Hi) as (s1 & s2 & post & Hb & _).
    apply mask_row_spec in Hb as (Hdef & _). by apply Hdef.
  - intros i j Hi Hj Hm. destruct (Hvisit i Hi) as (s1 & s2 & post & Hb & Hp).
    eapply (for_each_inv (fun s => lookup2 s i j = Some 0%Z)); [| exact Hp |].
    + intros x t1 t2 _ Ht. apply mask_row_spec in Ht as (_ & _ & Hkeep & _).
      apply Hkeep.
    + apply mask_row_spec in Hb as (_ & Hzero & _). by apply Hzero.
  - intros i j Hout.
    eapply (for_each_inv (fun s => lookup2 s i j = lookup2 a i j));
      [| exact Hrun | done].
    intros x t1 t2 Hx Ht Hkeep.
    apply elem_of_seq in Hx.
    apply mask_row_spec in Ht as (_ & _ & _ & Hframe).
    rewrite Hframe; [done |].
    intros (-> & Hj & Hm). apply Hout. repeat split; [lia | done | done].
Qed.

Lemma for_each_total {X S : Type} (I : S -> Prop) (body : X -> S -> result S)
    (xs : list X) :
  (forall x s, x ∈ xs -> I s -> exists s', body x s = Ok s' /\ I s') ->
  forall s, I s -> exists s', for_each body xs s = Ok s' /\ I s'.
Proof.
  induction xs as [|x xs IH]; intros Hstep s Hs; simpl; [eauto |].
  destruct (Hstep x s) as (s1 & -> & Hs1); [by left | done |]. simpl.
  apply IH; [| done]. intros y t Hy. apply Hstep. by right.
Qed.

Lemma mask_cell_total (m n : nat) (mask a : raster) (i j : nat) :
  covers m n mask -> covers m n a -> (i < m)%nat -> (j < n)%nat ->
  exists a', mask_cell mask i j a = Ok a' /\ covers m n a'.
Proof.
  unfold raster in *. intros Hmask Ha Hi Hj.
  destruct (Hmask i j Hi Hj) as [v Hv]. destruct (Ha i j Hi Hj) as [w Hw].
  unfold mask_cell. rewrite (proj2 (getitem2_Ok _ _ _ _) Hv). simpl.
  destruct (Z.eqb_spec v 0) as [-> | Hne]; [| eauto].
  unfold lookup2 in Hw. destruct (a !! i) as [row|] eqn:Hrow; [| done].
  unfold setitem2, getitem. rewrite Hrow. simpl. rewrite Hw. simpl.
  eexists. split; [reflexivity |].
  intros i' j' Hi' Hj'.
  destruct (setitem2_Ok a (<[i:=<[j:=0%Z]> row]> a) i j 0%Z) as [Hset Hframe].
  { unfold setitem2, getitem. rewrite Hrow. simpl. by rewrite Hw. }
  destruct (decide ((i', j') = (i, j))) as [[= -> ->] | Hne].
  - by rewrite Hset.
  - rewrite Hframe by done. by apply Ha.
Qed.

(** The masking loops run to their end on rasters that cover the grid. *)
Lemma mask_accumulation_total (m n : nat) (mask a : raster) :
  covers m n mask -> covers m n a ->
  exists a', mask_accumulation m n mask a = Ok a' /\ covers m n a'.
Proof.
  intros Hmask Ha. unfold mask_accumulation.
  apply (for_each_total (covers m n)); [| done].
  intros i s Hi Hs. apply elem_of_seq in Hi. unfold mask_row.
  apply (for_each_total (covers m n)); [| done].
  intros j t Hj Ht. apply elem_of_seq in Hj.
  apply mask_cell_total; [done | done | lia | lia].
Qed.

(** ** The stream mask and the nearest stream cell *)

Lemma lookup2_stream_mask (a : raster) (T : Z) (i j : nat) :
  lookup2 (stream_mask a T) i j = (fun v => (T <? v)%Z) <$> lookup2 a i j.
Proof.
  unfold raster in *. unfold lookup2, stream_mask.
  change (map ?f ?l) with (f <$> l).
  rewrite list_lookup_fmap. destruct (a !! i) as [row|]; simpl; [| done].
  change (map ?f ?l) with (f <$> l). by rewrite list_lookup_fmap.
Qed.

Lemma elem_of_true_cells (mask : list (list bool)) (c : nat * nat) :
  c ∈ true_cells mask <-> lookup2 mask c.1 c.2 = Some true.
Proof.
  unfold true_cells, lookup2. rewrite list_elem_of_In, in_concat. split.
  - intros (cs & Hcs & Hc).
    apply list_elem_of_In, elem_of_lookup_imap in Hcs as (i & row & -> & Hrow).
    unfold cells_of_row in Hc.
    apply list_elem_of_In in Hc.
    change (map ?f ?l) with (f <$> l) in Hc.
    apply list_elem_of_fmap in Hc as (j & -> & Hj).
    apply list_elem_of_filter in Hj as [Hj _]. simpl. by rewrite Hrow.
  - destruct c as [i j]. simpl.
    destruct (mask !! i) as [row|] eqn:Hrow; [| done]. intros Hj.
    exists (cells_of_row i row). split.
    + apply list_elem_of_In. by apply elem_of_lookup_imap_2.
    + apply list_elem_of_In. unfold cells_of_row.
      change (map ?f ?l) with (f <$> l).
      apply list_elem_of_fmap. exists j. split; [done |].
      apply list_elem_of_filter. split; [done |].
      apply elem_of_seq. apply lookup_lt_Some in Hj. lia.
Qed.

Lemma nearest_min (xy_of : nat * nat -> point) (xy : point) (cands : list (nat * nat)) :
  forall best,
    nearest xy_of xy best cands ∈ best :: cands
    /\ (forall c, c ∈ best :: cands ->
          (dist2 (xy_of (nearest xy_of xy best cands)) xy <= dist2 (xy_of c) xy)%Q).
Proof.
  induction cands as [|c cands IH]; intros best; simpl.
  - split; [by left |]. intros c Hc. apply list_elem_of_singleton in Hc. subst c.
    apply Qle_refl.
  - destruct (Qgt_bool (dist2 (xy_of best) xy) (dist2 (xy_of c) xy)) eqn:Hcmp.
    + apply Qgt_bool_true in Hcmp.
      destruct (IH c) as [Hin Hmin]. split.
      * apply elem_of_cons in Hin as [-> | Hin]; [right; by left | by do 2 right].
      * intros c' Hc'. apply elem_of_cons in Hc' as [-> | Hc'].
        -- eapply Qle_trans; [apply Hmin; by left | by apply Qlt_le_weak].
        -- by apply Hmin.
    + apply Qgt_bool_false in Hcmp.
      destruct (IH best) as [Hin Hmin]. split.
      * apply elem_of_cons in Hin as [-> | Hin]; [by left | by do 2 right].
      * intros c' Hc'. apply elem_of_cons in Hc' as [-> | Hc'].
        -- apply Hmin. by left.
        -- apply elem_of_cons in Hc' as [-> | Hc'].
           ++ eapply Qle_trans; [apply Hmin; by left | done].
           ++ apply Hmin. by right.
Qed.

(** The cell that the snap selects is a true cell of the mask and no true
    cell is nearer to the input coordinate. *)
Lemma nearest_stream_cell_spec (g : Grid) (mask : list (list bool)) (xy : point)
    (c : nat * nat) :
  nearest_stream_cell g mask xy = Some c ->
  lookup2 mask c.1 c.2 = Some true
  /\ (forall c', lookup2 mask c'.1 c'.2 = Some true ->
        (dist2 (cell_xy g c.1 c.2) xy <= dist2 (cell_xy g c'.1 c'.2) xy)%Q).
Proof.
  unfold nearest_stream_cell.
  destruct (true_cells mask) as [|c0 cands] eqn:Hcells; [discriminate |].
  intros [= <-].
  destruct (nearest_min (fun c => cell_xy g c.1 c.2) xy cands c0) as [Hin Hmin].
  rewrite <- Hcells in Hin, Hmin. split.
  - by apply elem_of_true_cells.
  - intros c' Hc'. apply (Hmin c'). by apply elem_of_true_cells.
Qed.

Lemma snap_to_mask_Ok `{Pysheds} (g : Grid) (mask : list (list bool)) (xy p : point)
    (d : Q) :
  snap_to_mask g mask xy = Ok (p, d) ->
  exists c, nearest_stream_cell g mask xy = Some c
    /\ p = cell_xy g c.1 c.2 /\ d = dist2 p xy.
Proof.
  unfold snap_to_mask.
  destruct (nearest_stream_cell g mask xy) as [c|]; [| discriminate].
  intros [= <- <-]. eauto.
Qed.


Lemma true_cell_exists (mask : list (list bool)) (g : Grid) (xy : point) (i j : nat) :
  lookup2 mask i j = Some true ->
  exists c, nearest_stream_cell g mask xy = Some c.
Proof.
  intros Hc. unfold nearest_stream_cell.
  destruct (true_cells mask) as [|c0 cands] eqn:Hcells; [| eauto].
  exfalso. apply (not_elem_of_nil (i, j)). rewrite <- Hcells.
  by apply elem_of_true_cells.
Qed.

(** ** The stream predicate (C4) *)

(** C4: the mask handed to the snap marks a cell of the masked accumulation
    raster as a stream cell exactly when its value is strictly above the
    threshold, which is 50 for a single unit catchment and 2000 otherwise; a
    cell equal to the threshold is not a stream cell. *)
Theorem stream_cell_iff `{Pysheds} (grid : Grid) (bSingleCatchment : bool) (i j : nat)
    (v : Z) :
  lookup2 (acc grid) i j = Some v ->
  numpixels true = 50%Z /\ numpixels false = 2000%Z
  /\ (lookup2 (stream_mask (acc grid) (numpixels bSingleCatchment)) i j = Some true
      <-> (numpixels bSingleCatchment < v)%Z)
  /\ (v = numpixels bSingleCatchment ->
      lookup2 (stream_mask (acc grid) (numpixels bSingleCatchment)) i j = Some false)
  /\ (forall lat lng,
        snap_pour_point grid lat lng bSingleCatchment
        = snap_to_mask grid (stream_mask (acc grid) (numpixels bSingleCatchment))
            (lng, lat)).
Proof.
  intros Hv. split; [done |]. split; [done |].
  rewrite lookup2_stream_mask, Hv. simpl. split; [| split].
  - split.
    + intros [= Hlt]. by apply Z.ltb_lt.
    + intros Hlt. f_equal. by apply Z.ltb_lt.
  - intros ->. f_equal. apply Z.ltb_irrefl.
  - done.
Qed.

(** The predicate on the cell of value 3000 of the toy window. *)
Lemma stream_cell_iff_witness :
  lookup2 Toy.accum0 1 1 = Some 3000%Z
  /\ (lookup2 (stream_mask Toy.accum0 (numpixels false)) 1 1 = Some true
      <-> (numpixels false < 3000)%Z).
Proof.
  split; [reflexivity |].
  exact (proj1 (proj2 (proj2
    (@stream_cell_iff (Toy.pysheds Toy.accum0 false [])
       (set_acc Toy.grid0 Toy.accum0) false 1 1 3000%Z eq_refl)))).
Defined.

(** ** Masking and snapping (C5) *)

Section MaskFacts.
Context `{Shapely} `{Pysheds} (config : Config).



End MaskFacts.


(** ** Monotonic snapping (C9) *)

(** C9: on one accumulation raster and one input coordinate, if at least one
    cell is a stream cell under each of two thresholds [T1 <= T2], both snaps
    return, and the Euclidean distance from the input coordinate to the
    coordinate snapped under [T2] is at least the distance under [T1]. *)
Theorem snap_distance_monotone `{Pysheds} (g : Grid) (a : raster) (xy : point)
    (T1 T2 : Z) :
  (T1 <= T2)%Z ->
  (exists i j v, lookup2 a i j = Some v /\ (T1 < v)%Z) ->
  (exists i j v, lookup2 a i j = Some v /\ (T2 < v)%Z) ->
  exists p1 d1 p2 d2,
    snap_to_mask g (stream_mask a T1) xy = Ok (p1, d1)
    /\ snap_to_mask g (stream_mask a T2) xy = Ok (p2, d2)
    /\ (d1 <= d2)%Q
    /\ (euclidean_distance p1 xy <= euclidean_distance p2 xy)%R.
Proof.
  intros HT (i1 & j1 & v1 & Hv1 & Hlt1) (i2 & j2 & v2 & Hv2 & Hlt2).
  assert (Hs1 : lookup2 (stream_mask a T1) i1 j1 = Some true).
  { rewrite lookup2_stream_mask, Hv1. simpl. f_equal. by apply Z.ltb_lt. }
  assert (Hs2 : lookup2 (stream_mask a T2) i2 j2 = Some true).
  { rewrite lookup2_stream_mask, Hv2. simpl. f_equal. by apply Z.ltb_lt. }
  destruct (true_cell_exists _ g xy _ _ Hs1) as [c1 Hc1].
  destruct (true_cell_exists _ g xy _ _ Hs2) as [c2 Hc2].
  exists (cell_xy g c1.1 c1.2), (dist2 (cell_xy g c1.1 c1.2) xy),
         (cell_xy g c2.1 c2.2), (dist2 (cell_xy g c2.1 c2.2) xy).
  unfold snap_to_mask. rewrite Hc1, Hc2. split; [done |]. split; [done |].
  apply nearest_stream_cell_spec in Hc1 as [_ Hmin1].
  apply nearest_stream_cell_spec in Hc2 as [Hin2 _].
  assert (Hle : (dist2 (cell_xy g c1.1 c1.2) xy <= dist2 (cell_xy g c2.1 c2.2) xy)%Q).
  { apply Hmin1. rewrite lookup2_stream_mask in Hin2 |- *.
    destruct (lookup2 a c2.1 c2.2) as [v|]; [| done]. simpl in *.
    injection Hin2 as Hin2. apply Z.ltb_lt in Hin2. f_equal. apply Z.ltb_lt. lia. }
  split; [done |].
  unfold euclidean_distance. apply sqrt_le_1_alt. by apply Qle_Rle.
Qed.

(** Thresholds 50 and 2000 on the toy window from the coordinate (11, 20):
    the snap moves from cell (0, 2) to cell (1, 1). *)
Lemma snap_distance_monotone_witness :
  (50 <= 2000)%Z
  /\ exists p1 d1 p2 d2,
       @snap_to_mask (Toy.pysheds Toy.accum0 false []) Toy.grid0
         (stream_mask Toy.accum0 50) (11, 20)%float = Ok (p1, d1)
       /\ @snap_to_mask (Toy.pysheds Toy.accum0 false []) Toy.grid0
            (stream_mask Toy.accum0 2000) (11, 20)%float = Ok (p2, d2)
       /\ (d1 <= d2)%Q
       /\ (euclidean_distance p1 (11, 20)%float <= euclidean_distance p2 (11, 20)%float)%R.
Proof.
  split; [lia |].
  apply (@snap_distance_monotone (Toy.pysheds Toy.accum0 false [])
           Toy.grid0 Toy.accum0 (11, 20)%float 50 2000).
  - lia.
  - exists 0%nat, 2%nat, 60%Z. split; [reflexivity | lia].
  - exists 1%nat, 1%nat, 3000%Z. split; [reflexivity | lia].
Defined.

(** ** The outcomes of a call (C1, C2, C8, C10) *)

Lemma no_true_cell `{Pysheds} (g : Grid) (mask : list (list bool)) (xy : point) :
  (forall i j, lookup2 mask i j <> Some true) ->
  snap_to_mask g mask xy = Raise snap_fault.
Proof.
  intros Hnone. unfold snap_to_mask, nearest_stream_cell.
  destruct (true_cells mask) as [|c cands] eqn:Hcells; [done |].
  exfalso. apply (Hnone c.1 c.2). apply elem_of_true_cells.
  rewrite Hcells. by left.
Qed.

Section Outcomes.
Context `{Shapely} `{Pysheds} (config : Config).

Lemma get_subdivided_merit_polygon_Ok (wid : string) (basin : Z) (lat lng : float)
    (catchment_poly : Geometry) (b : bool) (r : option Geometry * float * float) :
  get_subdivided_merit_polygon config wid basin lat lng catchment_poly b = Ok r ->
  exists grid lng_snap lat_snap d,
    masked_grid config basin catchment_poly = Ok grid
    /\ snap_pour_point grid lat lng b = Ok ((lng_snap, lat_snap), d)
    /\ delineate grid lng_snap lat_snap = Ok r.
Proof.
  unfold get_subdivided_merit_polygon. intros Hrun.
  apply bind_Ok in Hrun as (grid & Hgrid & Hrun).
  apply bind_Ok in Hrun as ([[lng_snap lat_snap] d] & Hsnap & Hrun).
  by exists grid, lng_snap, lat_snap, d.
Qed.

Lemma get_subdivided_merit_polygon_steps (wid : string) (basin : Z) (lat lng : float)
    (catchment_poly : Geometry) (b : bool) (grid : Grid) (lng_snap lat_snap : float)
    (d : Q) :
  masked_grid config basin catchment_poly = Ok grid ->
  snap_pour_point grid lat lng b = Ok ((lng_snap, lat_snap), d) ->
  get_subdivided_merit_polygon config wid basin lat lng catchment_poly b
  = delineate grid lng_snap lat_snap.
Proof.
  intros Hgrid Hsnap. unfold get_subdivided_merit_polygon.
  rewrite Hgrid. simpl. by rewrite Hsnap.
Qed.

(** The loop over the shapes counts them and collects one polygon each. *)
Lemma collect_shape_count (shapes : list (Shape * Z)) :
  forall polys0 count0 polys count,
    for_each collect_shape shapes (polys0, count0) = Ok (polys, count) ->
    count = (count0 + length shapes)%nat
    /\ length polys = (length polys0 + length shapes)%nat.
Proof.
  induction shapes as [|sv shapes IH]; intros polys0 count0 polys count Hrun;
    simpl in Hrun.
  - injection Hrun as <- <-. simpl. lia.
  - apply bind_Ok in Hrun as ([polys1 count1] & Hstep & Hrest).
    unfold collect_shape in Hstep.
    apply bind_Ok in Hstep as (p & _ & Hstep). injection Hstep as <- <-.
    apply IH in Hrest as [-> ->]. rewrite length_app. simpl. lia.
Qed.

(** C1: whenever the snap returned [(lng_snap, lat_snap)] and the traversal
    raised, the call returns the tuple [(None, lng_snap, lat_snap)]: the
    sentinel, then the snapped longitude, then the snapped latitude, both
    as snapped. *)
Theorem failure_returns_lng_then_lat (wid : string) (basin : Z) (lat lng : float)
    (catchment_poly : Geometry) (b : bool) (grid : Grid) (lng_snap lat_snap : float)
    (d : Q) (e : py_exception) :
  masked_grid config basin catchment_poly = Ok grid ->
  snap_pour_point grid lat lng b = Ok ((lng_snap, lat_snap), d) ->
  try_catchment grid lng_snap lat_snap = Raise e ->
  get_subdivided_merit_polygon config wid basin lat lng catchment_poly b
  = Ok (None, lng_snap, lat_snap).
Proof.
  intros Hgrid Hsnap Hcatch.
  rewrite (get_subdivided_merit_polygon_steps _ _ _ _ _ _ _ _ _ _ Hgrid Hsnap).
  unfold delineate. by rewrite Hcatch.
Qed.

(** C2, amended: when no cell of the masked accumulation raster is above
    the threshold, the snap ends with the library's own exception and that
    exception leaves the call unchanged: it is not wrapped in an error
    class of the source, it is not turned into the no-catchment outcome,
    and the call does not return. *)
Theorem snap_fault_propagates (wid : string) (basin : Z) (lat lng : float)
    (catchment_poly : Geometry) (b : bool) (grid : Grid) :
  masked_grid config basin catchment_poly = Ok grid ->
  (forall i j v, lookup2 (acc grid) i j = Some v -> (v <= numpixels b)%Z) ->
  snap_pour_point grid lat lng b = Raise snap_fault
  /\ get_subdivided_merit_polygon config wid basin lat lng catchment_poly b
     = Raise snap_fault
  /\ (forall r, get_subdivided_merit_polygon config wid basin lat lng catchment_poly b
                <> Ok r).
Proof.
  intros Hgrid Hlow.
  assert (Hsnap : snap_pour_point grid lat lng b = Raise snap_fault).
  { unfold snap_pour_point. apply no_true_cell. intros i j.
    rewrite lookup2_stream_mask.
    destruct (lookup2 (acc grid) i j) as [v|] eqn:Hv; [| done]. simpl.
    intros [= Hlt]. apply Z.ltb_lt in Hlt. specialize (Hlow i j v Hv). lia. }
  assert (Hrun : get_subdivided_merit_polygon config wid basin lat lng catchment_poly b
                 = Raise snap_fault).
  { unfold get_subdivided_merit_polygon. rewrite Hgrid. simpl. by rewrite Hsnap. }
  split; [done |]. split; [done |]. intros r. by rewrite Hrun.
Qed.

(** C8, amended: every call that returns a polygon returns it with the
    snapped latitude minus [h] in second place and the snapped longitude
    plus [h] in third place, in binary64, whichever of the two return
    branches runs; [h] is the constant [0.0008333333335070341758 / 2] of
    line 90, that is 0.00041666666675351709, which is not half of a pixel
    of 1/1200 degree. *)
Theorem success_nudges_half_pixel (wid : string) (basin : Z) (lat lng : float)
    (catchment_poly : Geometry) (b : bool) (poly : Geometry) (lat_ret lng_ret : float) :
  get_subdivided_merit_polygon config wid basin lat lng catchment_poly b
  = Ok (Some poly, lat_ret, lng_ret) ->
  (exists grid lng_snap lat_snap d,
     masked_grid config basin catchment_poly = Ok grid
     /\ snap_pour_point grid lat lng b = Ok ((lng_snap, lat_snap), d)
     /\ lng_ret = (lng_snap + 0.00041666666675351709)%float
     /\ lat_ret = (lat_snap - 0.00041666666675351709)%float)
  /\ (0.00041666666675351709 = 0.0008333333335070341758 / 2)%float
  /\ (0.00041666666675351709)%float <> Window.half_pixel_1200.
Proof.
  intros Hrun. split; [| split].
  - apply get_subdivided_merit_polygon_Ok in Hrun
      as (grid & lng_snap & lat_snap & d & Hgrid & Hsnap & Hdel).
    exists grid, lng_snap, lat_snap, d. split; [done |]. split; [done |].
    assert (Hh : (0.00041666666675351709)%float = Window.halfpix) by (by vm_compute).
    rewrite Hh. unfold delineate in Hdel.
    destruct (try_catchment grid lng_snap lat_snap) as [g'|e]; [| discriminate].
    apply bind_Ok in Hdel as (shapes & _ & Hdel).
    apply bind_Ok in Hdel as ([polys count] & _ & Hdel).
    destruct (1 <? count)%nat.
    + apply bind_Ok in Hdel as (u & _ & Hdel). by injection Hdel as _ <- <-.
    + apply bind_Ok in Hdel as (p & _ & Hdel). by injection Hdel as _ <- <-.
  - by vm_compute.
  - intros Heq.
    apply (f_equal (fun h => (h =? 0.00041666666675351709)%float)) in Heq.
    vm_compute in Heq. discriminate Heq.
Qed.

(** C10: in a call that reaches the polygonization, when at most one shape
    comes out the return value is built from element 0 of the collected
    polygons; with exactly one collected polygon that polygon is returned;
    with no shape at all the access faults with [IndexError] and the call
    returns nothing, in particular not the no-catchment outcome. *)
Theorem zero_shapes_fault (wid : string) (basin : Z) (lat lng : float)
    (catchment_poly : Geometry) (b : bool) (grid g' : Grid) (lng_snap lat_snap : float)
    (d : Q) (shapes : list (Shape * Z)) (polys : list Polygon) (count : nat) :
  masked_grid config basin catchment_poly = Ok grid ->
  snap_pour_point grid lat lng b = Ok ((lng_snap, lat_snap), d) ->
  try_catchment grid lng_snap lat_snap = Ok g' ->
  polygonize g' = Ok shapes ->
  for_each collect_shape shapes ([], 0%nat) = Ok (polys, count) ->
  (length shapes <= 1)%nat ->
  get_subdivided_merit_polygon config wid basin lat lng catchment_poly b
  = (shapely_polygon <- getitem polys 0 ;;
     Ok (Some (GeomPolygon shapely_polygon),
         (lat_snap - Window.halfpix)%float, (lng_snap + Window.halfpix)%float))
  /\ (forall p, polys = [p] ->
        get_subdivided_merit_polygon config wid basin lat lng catchment_poly b
        = Ok (Some (GeomPolygon p),
              (lat_snap - Window.halfpix)%float, (lng_snap + Window.halfpix)%float))
  /\ (shapes = [] ->
        get_subdivided_merit_polygon config wid basin lat lng catchment_poly b
        = Raise IndexError
        /\ forall r, get_subdivided_merit_polygon config wid basin lat lng
                       catchment_poly b <> Ok r).
Proof.
  intros Hgrid Hsnap Hcatch Hpoly Hloop Hlen.
  rewrite (get_subdivided_merit_polygon_steps _ _ _ _ _ _ _ _ _ _ Hgrid Hsnap).
  destruct (collect_shape_count _ _ _ _ _ Hloop) as [Hcount Hpolys]. simpl in *.
  assert (Hdel : delineate grid lng_snap lat_snap
                 = (shapely_polygon <- getitem polys 0 ;;
                    Ok (Some (GeomPolygon shapely_polygon),
                        (lat_snap - Window.halfpix)%float,
                        (lng_snap + Window.halfpix)%float))).
  { unfold delineate. rewrite Hcatch, Hpoly. simpl. rewrite Hloop. simpl.
    destruct (Nat.ltb_spec 1 count); [lia | done]. }
  rewrite Hdel. split; [done |]. split.
  - by intros p ->.
  - intros ->. simpl in Hloop. injection Hloop as <- <-. simpl.
    split; [done |]. intros r. discriminate.
Qed.

End Outcomes.

(** ** Runs in the toy window *)

Module ToyFacts.
Import Toy.
#[local] Open Scope float_scope.

(** The outlet (lat 19, lng 10) snaps to cell (1, 1) at (10.5, 19.5).  With
    a failing traversal the call returns the longitude in second place; with
    a successful one it returns the nudged latitude in second place. *)
Example failure_and_success_positions :
  @snap_pour_point (pysheds accum0 true []) masked0 19 10 true
  = Ok ((10.5, 19.5), dist2 (10.5, 19.5) (10, 19))
  /\ run accum0 true [(shape0, 1%Z)] 19 10 true = Ok (None, 10.5, 19.5)
  /\ run accum0 false [(shape0, 1%Z)] 19 10 true
     = Ok (Some (GeomPolygon (mkPolygon (square 10 19 1) [])),
           19.499583333333245, 10.500416666666753).
Proof. split; [| split]; by vm_compute. Qed.

Lemma failure_returns_lng_then_lat_witness :
  @masked_grid shapely (pysheds accum0 true []) config 11%Z (GeomPolygon donut)
  = Ok masked0
  /\ @snap_pour_point (pysheds accum0 true []) masked0 19 10 true
     = Ok ((10.5, 19.5), dist2 (10.5, 19.5) (10, 19))
  /\ @try_catchment (pysheds accum0 true []) masked0 10.5 19.5
     = Raise (LibraryError "RecursionError")
  /\ run accum0 true [] 19 10 true = Ok (None, 10.5, 19.5).
Proof.
  assert (Hgrid : @masked_grid shapely (pysheds accum0 true []) config 11%Z
                    (GeomPolygon donut) = Ok masked0) by reflexivity.
  assert (Hsnap : @snap_pour_point (pysheds accum0 true []) masked0 19 10 true
                  = Ok ((10.5, 19.5), dist2 (10.5, 19.5) (10, 19))) by reflexivity.
  assert (Hcatch : @try_catchment (pysheds accum0 true []) masked0 10.5 19.5
                   = Raise (LibraryError "RecursionError")) by reflexivity.
  split; [exact Hgrid |]. split; [exact Hsnap |]. split; [exact Hcatch |].
  exact (@failure_returns_lng_then_lat shapely (pysheds accum0 true []) config
           "w1"%string 11%Z 19 10 (GeomPolygon donut) true masked0 10.5 19.5 _ _
           Hgrid Hsnap Hcatch).
Defined.

Lemma masked_low_below_threshold (i j : nat) (v : Z) :
  lookup2 (acc masked_low) i j = Some v -> (v <= numpixels true)%Z.
Proof.
  destruct i as [|[|[|i]]]; destruct j as [|[|[|j]]]; simpl;
    intros [= <-]; lia.
Qed.

(** C2, counterexample: in the toy window with the accumulation
    [accum_low], where no masked cell is above the threshold 50, the call
    raises [IndexError]; what it raises is not a [NoStreamCellsFound]
    error. *)
Lemma no_stream_cell_is_not_typed :
  ~ (exists e, run accum_low false [(shape0, 1%Z)] 19 10 true = Raise e
               /\ exc_class e = "NoStreamCellsFound"%string).
Proof.
  intros (e & Hrun & Hcls).
  assert (He : run accum_low false [(shape0, 1%Z)] 19 10 true = Raise IndexError)
    by reflexivity.
  rewrite He in Hrun. injection Hrun as <-. discriminate Hcls.
Qed.

Lemma snap_fault_propagates_witness :
  @masked_grid shapely (pysheds accum_low false [(shape0, 1%Z)]) config 11%Z
    (GeomPolygon donut) = Ok masked_low
  /\ run accum_low false [(shape0, 1%Z)] 19 10 true = Raise IndexError.
Proof.
  assert (Hgrid : @masked_grid shapely (pysheds accum_low false [(shape0, 1%Z)]) config
                    11%Z (GeomPolygon donut) = Ok masked_low) by reflexivity.
  split; [exact Hgrid |].
  exact (proj1 (proj2
    (@snap_fault_propagates shapely (pysheds accum_low false [(shape0, 1%Z)]) config
       "w1"%string 11%Z 19 10 (GeomPolygon donut) true masked_low Hgrid
       masked_low_below_threshold))).
Defined.

Lemma success_nudges_half_pixel_witness :
  run accum0 false [(shape0, 1%Z)] 19 10 true
  = Ok (Some (GeomPolygon (mkPolygon (square 10 19 1) [])),
        19.499583333333245, 10.500416666666753)
  /\ exists grid lng_snap lat_snap d,
       @masked_grid shapely (pysheds accum0 false [(shape0, 1%Z)]) config 11%Z
         (GeomPolygon donut) = Ok grid
       /\ @snap_pour_point (pysheds accum0 false [(shape0, 1%Z)]) grid 19 10 true
          = Ok ((lng_snap, lat_snap), d)
       /\ 10.500416666666753 = lng_snap + 0.00041666666675351709
       /\ 19.499583333333245 = lat_snap - 0.00041666666675351709.
Proof.
  assert (Hrun : run accum0 false [(shape0, 1%Z)] 19 10 true
                 = Ok (Some (GeomPolygon (mkPolygon (square 10 19 1) [])),
                       19.499583333333245, 10.500416666666753)) by reflexivity.
  split; [exact Hrun |].
  exact (proj1 (@success_nudges_half_pixel shapely (pysheds accum0 false [(shape0, 1%Z)])
                  config "w1"%string 11%Z 19 10 (GeomPolygon donut) true _ _ _ Hrun)).
Defined.

(** C8, counterexample: the run that snaps to (10.5, 19.5) returns a
    longitude and a latitude that are not 10.5 plus and 19.5 minus half of
    a pixel of 1/1200 degree. *)
Lemma nudge_is_not_half_of_1200th :
  ~ (forall poly lat_ret lng_ret,
       run accum0 false [(shape0, 1%Z)] 19 10 true = Ok (Some poly, lat_ret, lng_ret) ->
       lng_ret = 10.5 + Window.half_pixel_1200
       /\ lat_ret = 19.5 - Window.half_pixel_1200).
Proof.
  intros Hclaim.
  destruct (Hclaim _ _ _ eq_refl) as [Hlng _].
  apply (f_equal (fun x => x =? 10.500416666666753)) in Hlng.
  vm_compute in Hlng. discriminate Hlng.
Qed.

Lemma zero_shapes_fault_witness :
  @polygonize (pysheds accum0 false []) masked0 = Ok []
  /\ run accum0 false [] 19 10 true = Raise IndexError.
Proof.
  split; [reflexivity |].
  refine (proj1 (proj2 (proj2
    (@zero_shapes_fault shapely (pysheds accum0 false []) config
       "w1"%string 11%Z 19 10 (GeomPolygon donut) true masked0 masked0 10.5 19.5
       (dist2 (10.5, 19.5) (10, 19)) [] [] 0%nat
       eq_refl eq_refl eq_refl eq_refl eq_refl _)) eq_refl)).
  simpl. lia.
Defined.

End ToyFacts.

(** * Further properties of the code *)

(** ** [close_holes] and [fill_geopandas] *)

Lemma filter_idempotent {A : Type} (f : A -> bool) (l : list A) :
  List.filter f (List.filter f l) = List.filter f l.
Proof.
  induction l as [|x l IH]; simpl; [done |].
  destruct (f x) eqn:Hx; simpl; [| done]. by rewrite Hx, IH.
Qed.

Lemma filter_sublist {A : Type} (f : A -> bool) (l : list A) :
  sublist (List.filter f l) l.
Proof.
  induction l as [|x l IH]; simpl; [constructor |].
  destruct (f x); by constructor.
Qed.

Lemma filter_sublist_mono {A : Type} (f g : A -> bool) (l : list A) :
  (forall x, f x = true -> g x = true) ->
  sublist (List.filter f l) (List.filter g l).
Proof.
  intros Hfg. induction l as [|x l IH]; simpl; [constructor |].
  destruct (f x) eqn:Hf.
  - rewrite (Hfg x Hf). by constructor.
  - destruct (g x); [by constructor | done].
Qed.

Lemma series_apply_Ok {A B : Type} (f : A -> result B) (series : list A) :
  forall out, series_apply f series = Ok out ->
              Forall2 (fun x y => f x = Ok y) series out.
Proof.
  induction series as [|x series IH]; intros out Hrun; simpl in Hrun.
  - injection Hrun as <-. constructor.
  - apply bind_Ok in Hrun as (y & Hy & Hrun).
    apply bind_Ok in Hrun as (ys & Hys & Hrun). injection Hrun as <-.
    constructor; [done | by apply IH].
Qed.

Section HolesFacts.
Context `{Shapely}.

Lemma close_holes_fixed (poly : Geometry) (area_max : Q) (r : Polygon) :
  close_holes poly area_max = Ok r ->
  close_holes (GeomPolygon r) area_max = Ok r.
Proof.
  unfold close_holes. intros Hrun.
  apply bind_Ok in Hrun as (p & _ & Hrun). simpl.
  destruct (Qeq_bool area_max 0).
  - destruct (interiors p) as [|h hs] eqn:Hint; injection Hrun as <-; simpl.
    + by rewrite Hint.
    + done.
  - injection Hrun as <-. simpl.
    rewrite !keep_interiors_filter. simpl. by rewrite filter_idempotent.
Qed.

(** X2: [close_holes] is idempotent: applied to its own result with the same
    threshold it returns that result unchanged, whether the input was a
    polygon or a multipolygon and whether the threshold is zero or not. *)
Theorem close_holes_idempotent (poly : Geometry) (area_max : Q) (r : Polygon) :
  close_holes poly area_max = Ok r ->
  close_holes (GeomPolygon r) area_max = Ok r
  /\ close_holes (GeomMultiPolygon [r]) area_max = Ok r.
Proof.
  intros Hrun. apply close_holes_fixed in Hrun. split; [done |].
  unfold close_holes in *. by simpl in *.
Qed.

(** X3: the holes of the result are a sublist of the holes of the part that
    is kept, for every threshold: no hole is added, changed or reordered, and
    the exterior ring is that of the kept part. *)
Theorem close_holes_keeps_sublist (poly : Geometry) (area_max : Q) (p r : Polygon) :
  largest_part poly = Ok p ->
  close_holes poly area_max = Ok r ->
  exterior r = exterior p /\ sublist (interiors r) (interiors p).
Proof.
  unfold close_holes. intros Hp Hrun. rewrite Hp in Hrun. simpl in Hrun.
  destruct (Qeq_bool area_max 0).
  - destruct (interiors p) as [|h hs] eqn:Hint; injection Hrun as <-; simpl.
    + by rewrite Hint.
    + split; [done |]. apply sublist_nil_l.
  - injection Hrun as <-. simpl. split; [done |].
    rewrite keep_interiors_filter. simpl. apply filter_sublist.
Qed.

(** X4: between two thresholds that are both not zero, the larger one keeps
    fewer holes: the holes kept under [a2] are a sublist of the holes kept
    under [a1] whenever [a1 <= a2]. *)
Theorem close_holes_threshold_monotone (poly : Geometry) (a1 a2 : Q) (r1 r2 : Polygon) :
  (a1 <= a2)%Q -> ~ (a1 == 0)%Q -> ~ (a2 == 0)%Q ->
  close_holes poly a1 = Ok r1 ->
  close_holes poly a2 = Ok r2 ->
  sublist (interiors r2) (interiors r1).
Proof.
  unfold close_holes. intros Hle Hz1 Hz2 Hr1 Hr2.
  destruct (largest_part poly) as [p|e]; simpl in *; [| discriminate].
  destruct (Qeq_bool a1 0) eqn:E1; [by apply Qeq_bool_iff in E1 |].
  destruct (Qeq_bool a2 0) eqn:E2; [by apply Qeq_bool_iff in E2 |].
  injection Hr1 as <-. injection Hr2 as <-. simpl.
  rewrite !keep_interiors_filter. simpl.
  apply filter_sublist_mono. intros h Hh.
  apply Qgt_bool_true in Hh. apply Qgt_bool_true.
  eapply Qle_lt_trans; [exact Hle | exact Hh].
Qed.

(** X6: [fill_geopandas] is idempotent: filling the filled column again,
    with the same threshold, returns it unchanged. *)
Theorem fill_geopandas_idempotent (df : list Geometry) (area_max : Q)
    (filled : list Polygon) :
  fill_geopandas df area_max = Ok filled ->
  fill_geopandas (map GeomPolygon filled) area_max = Ok filled.
Proof.
  unfold fill_geopandas. intros Hrun. apply series_apply_Ok in Hrun.
  induction Hrun as [|p r df filled Hr _ IH]; simpl; [done |].
  rewrite (close_holes_fixed _ _ _ Hr). simpl. by rewrite IH.
Qed.

End HolesFacts.

(** ** The masking loops: shape, failure, repetition *)

Lemma for_each_Raise {X S : Type} (P : py_exception -> Prop) (body : X -> S -> result S)
    (xs : list X) :
  (forall x s e, x ∈ xs -> body x s = Raise e -> P e) ->
  forall s e, for_each body xs s = Raise e -> P e.
Proof.
  induction xs as [|x xs IH]; intros Hbody s e Hrun; simpl in Hrun; [discriminate |].
  destruct (body x s) as [s1|e1] eqn:Hx; simpl in Hrun.
  - eapply IH; [| exact Hrun]. intros y t e' Hy. apply Hbody. by right.
  - injection Hrun as <-. eapply Hbody; [by left | exact Hx].
Qed.

Lemma for_each_fixed {X S : Type} (body : X -> S -> result S) (xs : list X) (s : S) :
  (forall x, x ∈ xs -> body x s = Ok s) -> for_each body xs s = Ok s.
Proof.
  induction xs as [|x xs IH]; intros Hfix; simpl; [done |].
  rewrite Hfix by (by left). simpl. apply IH. intros y Hy. apply Hfix. by right.
Qed.

Lemma getitem_Raise {A : Type} (l : list A) (i : nat) (e : py_exception) :
  getitem l i = Raise e -> e = IndexError.
Proof. unfold getitem. destruct (l !! i); [discriminate | by intros [= <-]]. Qed.

Lemma mask_cell_Raise (mask a : raster) (i j : nat) (e : py_exception) :
  mask_cell mask i j a = Raise e -> e = IndexError.
Proof.
  unfold mask_cell, getitem2, setitem2.
  destruct (getitem mask i) as [mrow|e1] eqn:H1; simpl;
    [| intros [= <-]; by eapply getitem_Raise].
  destruct (getitem mrow j) as [v|e2] eqn:H2; simpl;
    [| intros [= <-]; by eapply getitem_Raise].
  destruct (v =? 0)%Z; [| discriminate].
  destruct (getitem a i) as [row|e3] eqn:H3; simpl;
    [| intros [= <-]; by eapply getitem_Raise].
  destruct (getitem row j) as [w|e4] eqn:H4; simpl;
    [discriminate | intros [= <-]; by eapply getitem_Raise].
Qed.

Lemma setitem2_dims (a a' : raster) (i j : nat) (v : Z) :
  setitem2 a i j v = Ok a' -> map length a' = map length a.
Proof.
  unfold raster in *. unfold setitem2, getitem.
  destruct (a !! i) as [row|] eqn:Hrow; simpl; [| discriminate].
  destruct (row !! j) as [w|] eqn:Hw; simpl; [| discriminate].
  intros [= <-].
  change (map ?f ?l) with (f <$> l). rewrite list_fmap_insert, length_insert.
  apply list_insert_id. by rewrite list_lookup_fmap, Hrow.
Qed.

Lemma mask_cell_dims (mask a a' : raster) (i j : nat) :
  mask_cell mask i j a = Ok a' -> map length a' = map length a.
Proof.
  unfold mask_cell. intros Hrun. apply bind_Ok in Hrun as (v & _ & Hrun).
  destruct (v =? 0)%Z; [by eapply setitem2_dims | by injection Hrun as <-].
Qed.

Lemma mask_accumulation_dims (m n : nat) (mask a a' : raster) :
  mask_accumulation m n mask a = Ok a' -> map length a' = map length a.
Proof.
  unfold mask_accumulation. intros Hrun.
  eapply (for_each_inv (fun s => map length s = map length a)); [| exact Hrun | done].
  intros i s1 s2 _ Hrow Hs1. unfold mask_row in Hrow.
  eapply (for_each_inv (fun s => map length s = map length a)); [| exact Hrow | done].
  intros j t1 t2 _ Hcell Ht1. by rewrite (mask_cell_dims _ _ _ _ _ Hcell).
Qed.

Lemma lookup2_is_Some_dims (a a' : raster) (i j : nat) :
  map length a' = map length a ->
  is_Some (lookup2 a' i j) -> is_Some (lookup2 a i j).
Proof.
  unfold raster in *. intros Hdims Hsome. unfold lookup2 in *.
  assert (Hrow : length <$> (a' !! i) = length <$> (a !! i)).
  { rewrite <- !list_lookup_fmap. by f_equal. }
  destruct (a' !! i) as [row'|]; [| by destruct Hsome].
  destruct (a !! i) as [row|]; [| done]. simpl in Hrow.
  apply lookup_lt_is_Some. apply lookup_lt_is_Some in Hsome.
  injection Hrow as Hrow. lia.
Qed.

Lemma has_shape_dims (s : nat * nat) (a a' : raster) :
  map length a' = map length a -> has_shape s a -> has_shape s a'.
Proof.
  intros Hdims [Hrows Hcols]. split.
  - rewrite <- Hrows, <- (length_map length a'), Hdims. apply length_map.
  - apply Forall_forall. intros row' Hrow'.
    assert (Hin : length row' ∈ map length a).
    { rewrite <- Hdims. change (map ?f ?l) with (f <$> l).
      apply list_elem_of_fmap. eauto. }
    change (map ?f ?l) with (f <$> l) in Hin.
    apply list_elem_of_fmap in Hin as (row & -> & Hrow).
    rewrite Forall_forall in Hcols. by apply Hcols.
Qed.

Lemma setitem2_same {A : Type} (a : list (list A)) (i j : nat) (v : A) :
  lookup2 a i j = Some v -> setitem2 a i j v = Ok a.
Proof.
  unfold lookup2, setitem2, getitem.
  destruct (a !! i) as [row|] eqn:Hrow; [| done]. intros Hv. simpl.
  rewrite Hv. simpl. f_equal.
  rewrite (list_insert_id row j v Hv). by apply list_insert_id.
Qed.

Lemma mask_cell_maskable (m n : nat) (mask a : raster) (i j : nat) :
  maskable m n mask a -> (i < m)%nat -> (j < n)%nat ->
  exists a', mask_cell mask i j a = Ok a' /\ maskable m n mask a'.
Proof.
  intros Hok Hi Hj. destruct (Hok i j Hi Hj) as (v & Hv & Hacc).
  unfold mask_cell. rewrite (proj2 (getitem2_Ok _ _ _ _) Hv). simpl.
  destruct (Z.eqb_spec v 0) as [-> | Hne]; [| eauto].
  destruct (Hacc eq_refl) as [w Hw].
  destruct (setitem2 a i j 0%Z) as [a'|e] eqn:Hset.
  - exists a'. split; [done |]. intros i' j' Hi' Hj'.
    destruct (Hok i' j' Hi' Hj') as (v' & Hv' & Hacc').
    exists v'. split; [done |]. intros Hz.
    apply setitem2_Ok in Hset as [Hset Hframe].
    destruct (decide ((i', j') = (i, j))) as [[= -> ->] | Hne].
    + by rewrite Hset.
    + rewrite Hframe by done. by apply Hacc'.
  - exfalso. revert Hset. unfold lookup2 in Hw. unfold setitem2, getitem.
    unfold raster in *.
    destruct (a !! i) as [row|]; [| done]. simpl. by rewrite Hw.
Qed.

(** X7: the masking loops keep the shape of the accumulation array and touch
    no other cell: a cell whose mask value is not 0, or that lies outside
    the [m] by [n] range of the loops, keeps its accumulation value. *)
Theorem masking_keeps_shape_and_inside (m n : nat) (mask a a' : raster) (s : nat * nat) :
  mask_accumulation m n mask a = Ok a' ->
  has_shape s a ->
  has_shape s a'
  /\ (forall i j w, lookup2 mask i j = Some w -> w <> 0%Z ->
                    lookup2 a' i j = lookup2 a i j)
  /\ (forall i j, ~ ((i < m)%nat /\ (j < n)%nat) -> lookup2 a' i j = lookup2 a i j).
Proof.
  intros Hrun Hshape. split; [| split].
  - eapply has_shape_dims; [by eapply mask_accumulation_dims | done].
  - intros i j w Hw Hne. apply mask_accumulation_spec in Hrun as (_ & _ & Hframe).
    apply Hframe. intros (_ & _ & Hz). congruence.
  - intros i j Hout. apply mask_accumulation_spec in Hrun as (_ & _ & Hframe).
    apply Hframe. intros (Hi & Hj & _). by apply Hout.
Qed.

(** X8: the masking loops return exactly when every cell of the [m] by [n]
    range exists in the mask and every such cell with mask value 0 exists in
    the accumulation array; in every other case they end with
    [IndexError], and with no other exception. *)
Theorem masking_returns_iff_indexable (m n : nat) (mask a : raster) :
  ((exists a', mask_accumulation m n mask a = Ok a') <-> maskable m n mask a)
  /\ (forall e, mask_accumulation m n mask a = Raise e -> e = IndexError)
  /\ (~ maskable m n mask a -> mask_accumulation m n mask a = Raise IndexError).
Proof.
  assert (Hiff : (exists a', mask_accumulation m n mask a = Ok a') <-> maskable m n mask a).
  { split.
    - intros [a' Hrun] i j Hi Hj.
      assert (Hdims := mask_accumulation_dims _ _ _ _ _ Hrun).
      apply mask_accumulation_spec in Hrun as (Hdef & Hzero & _).
      destruct (Hdef i j Hi Hj) as [v Hv]. exists v. split; [done |].
      intros ->. eapply lookup2_is_Some_dims; [exact Hdims |].
      rewrite (Hzero i j Hi Hj Hv). by eexists.
    - intros Hok. unfold mask_accumulation.
      destruct (for_each_total (maskable m n mask) (mask_row n mask) (seq 0 m))
        with (s := a) as (a' & Hrun & _); [| done | eauto].
      intros i s Hi Hs. apply elem_of_seq in Hi. unfold mask_row.
      apply (for_each_total (maskable m n mask)); [| done].
      intros j t Hj Ht. apply elem_of_seq in Hj.
      apply mask_cell_maskable; [done | lia | lia]. }
  assert (Hexc : forall e, mask_accumulation m n mask a = Raise e -> e = IndexError).
  { intros e. unfold mask_accumulation.
    apply (for_each_Raise (fun e => e = IndexError)).
    intros i s e' _. unfold mask_row.
    apply (for_each_Raise (fun e => e = IndexError)).
    intros j t e'' _. apply mask_cell_Raise. }
  split; [exact Hiff |]. split; [exact Hexc |].
  intros Hnot. destruct (mask_accumulation m n mask a) as [a'|e] eqn:Hrun.
  - exfalso. apply Hnot, Hiff. eauto.
  - f_equal. by apply Hexc.
Qed.

(** X9: masking is idempotent: running the loops again on their own result,
    with the same mask and range, returns that result unchanged. *)
Theorem masking_idempotent (m n : nat) (mask a a' : raster) :
  mask_accumulation m n mask a = Ok a' ->
  mask_accumulation m n mask a' = Ok a'.
Proof.
  intros Hrun. apply mask_accumulation_spec in Hrun as (Hdef & Hzero & _).
  unfold mask_accumulation. apply for_each_fixed. intros i Hi.
  apply elem_of_seq in Hi. unfold mask_row. apply for_each_fixed. intros j Hj.
  apply elem_of_seq in Hj.
  destruct (Hdef i j) as [v Hv]; [lia | lia |].
  unfold mask_cell. rewrite (proj2 (getitem2_Ok _ _ _ _) Hv). simpl.
  destruct (Z.eqb_spec v 0) as [-> | Hne]; [| done].
  apply setitem2_same. apply Hzero; [lia | lia | done].
Qed.

(** X10: masking never creates a stream cell: for every threshold that is
    not negative, a stream cell of the masked accumulation is a stream cell
    of the accumulation as read, with the same value. *)
Theorem masking_creates_no_stream_cell (m n : nat) (mask a a' : raster) (T : Z)
    (i j : nat) :
  mask_accumulation m n mask a = Ok a' ->
  (0 <= T)%Z ->
  lookup2 (stream_mask a' T) i j = Some true ->
  lookup2 a' i j = lookup2 a i j
  /\ lookup2 (stream_mask a T) i j = Some true.
Proof.
  intros Hrun HT Hstream.
  apply mask_accumulation_spec in Hrun as (_ & Hzero & Hframe).
  assert (Hsame : lookup2 a' i j = lookup2 a i j).
  { apply Hframe. intros (Hi & Hj & Hm).
    rewrite lookup2_stream_mask, (Hzero i j Hi Hj Hm) in Hstream. simpl in Hstream.
    injection Hstream as Hlt. apply Z.ltb_lt in Hlt. lia. }
  split; [done |]. rewrite lookup2_stream_mask in Hstream |- *. by rewrite <- Hsame.
Qed.

(** ** The shapes and the outcomes of a call *)

Lemma map_pair_eta (r : ring) : map (fun p : point => (p.1, p.2)) r = r.
Proof. induction r as [|[x y] r IH]; simpl; [done | by rewrite IH]. Qed.

Lemma shape_to_polygon_Ok (sh : Shape) (z : Z) (p : Polygon) :
  shape_to_polygon sh = Ok p <-> exterior_of_shape (sh, z) p.
Proof.
  unfold shape_to_polygon, exterior_of_shape, getitem. simpl.
  destruct (coordinates sh) as [|r rest]; simpl.
  - split; [discriminate | by intros (r & rest & Hc & _)].
  - rewrite map_pair_eta. split.
    + intros [= <-]. by exists r, rest.
    + by intros (r' & rest' & [= <- <-] & ->).
Qed.

Lemma shape_to_polygon_Raise (sh : Shape) (e : py_exception) :
  shape_to_polygon sh = Raise e <-> coordinates sh = [] /\ e = IndexError.
Proof.
  unfold shape_to_polygon, getitem.
  destruct (coordinates sh) as [|r rest]; simpl.
  - split; [by intros [= <-] | by intros [_ ->]].
  - split; [discriminate | by intros [? _]].
Qed.

Lemma collect_shape_polys (shapes : list (Shape * Z)) :
  forall polys0 count0 polys count,
    for_each collect_shape shapes (polys0, count0) = Ok (polys, count) ->
    exists new, polys = polys0 ++ new /\ Forall2 exterior_of_shape shapes new.
Proof.
  induction shapes as [|[sh z] shapes IH]; intros polys0 count0 polys count Hrun;
    simpl in Hrun.
  - injection Hrun as <- <-. exists []. split; [by rewrite app_nil_r | constructor].
  - apply bind_Ok in Hrun as ([polys1 count1] & Hstep & Hrest).
    unfold collect_shape in Hstep. simpl in Hstep.
    apply bind_Ok in Hstep as (p & Hp & Hstep). injection Hstep as <- <-.
    apply IH in Hrest as (new & -> & Hnew).
    exists (p :: new). split; [by rewrite <- app_assoc |].
    constructor; [by apply (shape_to_polygon_Ok sh z) | done].
Qed.

Lemma collect_shape_Raise (shapes : list (Shape * Z)) (st : list Polygon * nat)
    (e : py_exception) :
  for_each collect_shape shapes st = Raise e -> e = IndexError.
Proof.
  apply (for_each_Raise (fun e => e = IndexError)).
  intros [sh z] [polys count] e' _. unfold collect_shape. simpl.
  destruct (shape_to_polygon sh) as [p|e''] eqn:Hp; simpl; [discriminate |].
  intros [= <-]. by apply shape_to_polygon_Raise in Hp as [_ ->].
Qed.

Lemma collect_shape_returns (shapes : list (Shape * Z)) :
  Forall (fun sv => coordinates sv.1 <> []) shapes ->
  forall st, exists polys count, for_each collect_shape shapes st = Ok (polys, count).
Proof.
  induction 1 as [|[sh z] shapes Hsh _ IH]; intros [polys0 count0]; simpl; [eauto |].
  unfold collect_shape at 1. simpl.
  destruct (shape_to_polygon sh) as [p|e] eqn:Hp; simpl; [apply IH |].
  by apply shape_to_polygon_Raise in Hp as [Hc _].
Qed.

Section MoreOutcomes.
Context `{Shapely} `{Pysheds} (config : Config).

(** X11: for a polygon, or a multipolygon with at least one part, whose
    kept part has a ring of its own, a missing flow direction raster ends
    the call with [Exception] and the message of line 113, which names the
    file; no raster is read and the outcome does not depend on any other
    library call. *)
Theorem missing_flowdir_raises (wid : string) (basin : Z) (lat lng : float)
    (catchment_poly : Geometry) (b : bool) (p : Polygon) :
  largest_part catchment_poly = Ok p ->
  exterior p <> [] ->
  isfile (fdir_fname config basin) = false ->
  get_subdivided_merit_polygon config wid basin lat lng catchment_poly b
  = Raise (Exception ("Could not find flow flow direction raster: "
                      +:+ fdir_fname config basin)).
Proof.
  intros Hp _ Hfile. unfold get_subdivided_merit_polygon, masked_grid.
  rewrite Hp. simpl. by rewrite Hfile.
Qed.

(** X12: a missing accumulation raster is found only after the flow
    direction window has been read and the mask rasterized: when those two
    calls return, the call ends with [Exception] and the message of line
    178, and the accumulation is never read, clipped or snapped. *)
Theorem missing_accumulation_raises (wid : string) (basin : Z) (lat lng : float)
    (catchment_poly : Geometry) (b : bool) (p : Polygon) (g : Grid) (mask : raster) :
  largest_part catchment_poly = Ok p ->
  isfile (fdir_fname config basin) = true ->
  from_raster (fdir_fname config basin) (Window.align_bounds (bounds p)) = Ok g ->
  rasterize g (rasterizer_input p) = Ok mask ->
  isfile (accum_fname config basin) = false ->
  get_subdivided_merit_polygon config wid basin lat lng catchment_poly b
  = Raise (Exception ("Could not find accumulation raster: "
                      +:+ accum_fname config basin)).
Proof.
  intros Hp Hfdir Hgrid Hmask Hacc.
  unfold get_subdivided_merit_polygon, masked_grid.
  rewrite Hp. simpl. rewrite Hfdir. simpl. rewrite Hgrid. simpl.
  rewrite Hmask. simpl. by rewrite Hacc.
Qed.

(** X13: the no-catchment outcome has one origin only.  A call that returns
    [(None, x, y)] got through masking and snapping, its traversal block
    raised, and [x], [y] are the snapped longitude and latitude as
    snapped; no fault of masking, snapping or polygonizing gives it. *)
Theorem sentinel_only_from_traversal (wid : string) (basin : Z) (lat lng : float)
    (catchment_poly : Geometry) (b : bool) (x y : float) :
  get_subdivided_merit_polygon config wid basin lat lng catchment_poly b
  = Ok (None, x, y) ->
  exists grid d e,
    masked_grid config basin catchment_poly = Ok grid
    /\ snap_pour_point grid lat lng b = Ok ((x, y), d)
    /\ try_catchment grid x y = Raise e.
Proof.
  intros Hrun.
  apply get_subdivided_merit_polygon_Ok in Hrun
    as (grid & lng_snap & lat_snap & d & Hgrid & Hsnap & Hdel).
  unfold delineate in Hdel.
  destruct (try_catchment grid lng_snap lat_snap) as [g'|e] eqn:Hcatch.
  - exfalso. apply bind_Ok in Hdel as (shapes & _ & Hdel).
    apply bind_Ok in Hdel as ([polys count] & _ & Hdel).
    destruct (1 <? count)%nat; apply bind_Ok in Hdel as (u & _ & Hdel);
      discriminate Hdel.
  - injection Hdel as <- <-. by exists grid, d, e.
Qed.

(** X14: only the traversal block is guarded.  After a traversal that
    returned, an exception of [polygonize] or of [unary_union] leaves the
    call as it is. *)
Theorem faults_after_traversal_propagate (wid : string) (basin : Z) (lat lng : float)
    (catchment_poly : Geometry) (b : bool) (grid g' : Grid) (lng_snap lat_snap : float)
    (d : Q) :
  masked_grid config basin catchment_poly = Ok grid ->
  snap_pour_point grid lat lng b = Ok ((lng_snap, lat_snap), d) ->
  try_catchment grid lng_snap lat_snap = Ok g' ->
  (forall e, polygonize g' = Raise e ->
     get_subdivided_merit_polygon config wid basin lat lng catchment_poly b = Raise e)
  /\ (forall shapes polys count e,
        polygonize g' = Ok shapes ->
        for_each collect_shape shapes ([], 0%nat) = Ok (polys, count) ->
        (1 < length shapes)%nat ->
        unary_union polys = Raise e ->
        get_subdivided_merit_polygon config wid basin lat lng catchment_poly b
        = Raise e).
Proof.
  intros Hgrid Hsnap Hcatch.
  rewrite (get_subdivided_merit_polygon_steps _ _ _ _ _ _ _ _ _ _ _ Hgrid Hsnap).
  unfold delineate. rewrite Hcatch. split.
  - intros e Hpoly. by rewrite Hpoly.
  - intros shapes polys count e Hpoly Hloop Hlen Hunion.
    rewrite Hpoly. simpl. rewrite Hloop. simpl.
    destruct (collect_shape_count _ _ _ _ _ Hloop) as [-> _]. simpl.
    destruct (Nat.ltb_spec 1 (length shapes)); [| lia]. by rewrite Hunion.
Qed.

(** X15: a polygonized shape without any ring ends the call with
    [IndexError], wherever it stands among the shapes and however many
    shapes there are. *)
Theorem shape_without_ring_raises (wid : string) (basin : Z) (lat lng : float)
    (catchment_poly : Geometry) (b : bool) (grid g' : Grid) (lng_snap lat_snap : float)
    (d : Q) (shapes : list (Shape * Z)) (sv : Shape * Z) :
  masked_grid config basin catchment_poly = Ok grid ->
  snap_pour_point grid lat lng b = Ok ((lng_snap, lat_snap), d) ->
  try_catchment grid lng_snap lat_snap = Ok g' ->
  polygonize g' = Ok shapes ->
  sv ∈ shapes -> coordinates sv.1 = [] ->
  get_subdivided_merit_polygon config wid basin lat lng catchment_poly b
  = Raise IndexError.
Proof.
  intros Hgrid Hsnap Hcatch Hpoly Hin Hempty.
  rewrite (get_subdivided_merit_polygon_steps _ _ _ _ _ _ _ _ _ _ _ Hgrid Hsnap).
  unfold delineate. rewrite Hcatch, Hpoly. simpl.
  destruct (for_each collect_shape shapes ([], 0%nat)) as [[polys count]|e] eqn:Hloop.
  - exfalso. apply collect_shape_polys in Hloop as (new & _ & Hnew).
    apply list_elem_of_lookup in Hin as [i Hi].
    destruct (Forall2_lookup_l _ _ _ _ _ Hnew Hi) as (p & _ & r & rest & Hc & _).
    congruence.
  - simpl. f_equal. by eapply collect_shape_Raise.
Qed.

(** X16: with two or more shapes, each with a ring, the call returns what
    [unary_union] makes of one polygon per shape, in the order of the
    shapes; each of these polygons is the first ring of its shape and has
    no interior ring, so further rings of a shape are dropped. *)
Theorem several_shapes_union_of_exteriors (wid : string) (basin : Z) (lat lng : float)
    (catchment_poly : Geometry) (b : bool) (grid g' : Grid) (lng_snap lat_snap : float)
    (d : Q) (shapes : list (Shape * Z)) :
  masked_grid config basin catchment_poly = Ok grid ->
  snap_pour_point grid lat lng b = Ok ((lng_snap, lat_snap), d) ->
  try_catchment grid lng_snap lat_snap = Ok g' ->
  polygonize g' = Ok shapes ->
  (1 < length shapes)%nat ->
  Forall (fun sv => coordinates sv.1 <> []) shapes ->
  exists polys,
    Forall2 exterior_of_shape shapes polys
    /\ get_subdivided_merit_polygon config wid basin lat lng catchment_poly b
       = (shapely_polygon <- unary_union polys ;;
          Ok (Some shapely_polygon,
              (lat_snap - Window.halfpix)%float, (lng_snap + Window.halfpix)%float)).
Proof.
  intros Hgrid Hsnap Hcatch Hpoly Hlen Hrings.
  rewrite (get_subdivided_merit_polygon_steps _ _ _ _ _ _ _ _ _ _ _ Hgrid Hsnap).
  destruct (collect_shape_returns shapes Hrings ([], 0%nat)) as (polys & count & Hloop).
  destruct (collect_shape_polys _ _ _ _ _ Hloop) as (new & Hnew & Hext).
  simpl in Hnew. subst new. exists polys. split; [done |].
  unfold delineate. rewrite Hcatch, Hpoly. simpl. rewrite Hloop. simpl.
  destruct (collect_shape_count _ _ _ _ _ Hloop) as [-> _]. simpl.
  by destruct (Nat.ltb_spec 1 (length shapes)); [| lia].
Qed.

(** X17: with exactly one shape the returned polygon is the first ring of
    that shape and has no interior ring: holes of the polygonized shape do
    not reach the caller. *)
Theorem single_shape_exterior_only (wid : string) (basin : Z) (lat lng : float)
    (catchment_poly : Geometry) (b : bool) (grid g' : Grid) (lng_snap lat_snap : float)
    (d : Q) (sh : Shape) (value : Z) (r : ring) (rest : list ring) :
  masked_grid config basin catchment_poly = Ok grid ->
  snap_pour_point grid lat lng b = Ok ((lng_snap, lat_snap), d) ->
  try_catchment grid lng_snap lat_snap = Ok g' ->
  polygonize g' = Ok [(sh, value)] ->
  coordinates sh = r :: rest ->
  get_subdivided_merit_polygon config wid basin lat lng catchment_poly b
  = Ok (Some (GeomPolygon (mkPolygon r [])),
        (lat_snap - Window.halfpix)%float, (lng_snap + Window.halfpix)%float).
Proof.
  intros Hgrid Hsnap Hcatch Hpoly Hc.
  rewrite (get_subdivided_merit_polygon_steps _ _ _ _ _ _ _ _ _ _ _ Hgrid Hsnap).
  unfold delineate. rewrite Hcatch, Hpoly. simpl.
  unfold collect_shape, shape_to_polygon, getitem. simpl. rewrite Hc. simpl.
  by rewrite map_pair_eta.
Qed.

(** X18: the threshold of a single unit catchment is the more permissive
    one: on one grid and one outlet, whenever the snap with threshold 2000
    returns, the snap with threshold 50 returns too, at a distance that is
    not larger. *)
Theorem single_catchment_snaps_nearer (grid : Grid) (lat lng : float) (p2 : point)
    (d2 : Q) :
  snap_pour_point grid lat lng false = Ok (p2, d2) ->
  exists p1 d1,
    snap_pour_point grid lat lng true = Ok (p1, d1) /\ (d1 <= d2)%Q.
Proof.
  unfold snap_pour_point. intros Hsnap.
  apply snap_to_mask_Ok in Hsnap as (c2 & Hc2 & -> & ->).
  apply nearest_stream_cell_spec in Hc2 as [Hin2 _].
  assert (Hin1 : lookup2 (stream_mask (acc grid) (numpixels true)) c2.1 c2.2 = Some true).
  { rewrite lookup2_stream_mask in Hin2 |- *.
    destruct (lookup2 (acc grid) c2.1 c2.2) as [v|]; [| done]. simpl in *.
    injection Hin2 as Hin2. apply Z.ltb_lt in Hin2. f_equal. apply Z.ltb_lt. lia. }
  destruct (true_cell_exists _ grid (lng, lat) _ _ Hin1) as [c1 Hc1].
  unfold snap_to_mask. rewrite Hc1. do 2 eexists. split; [reflexivity |].
  apply nearest_stream_cell_spec in Hc1 as [_ Hmin1]. by apply Hmin1.
Qed.

End MoreOutcomes.

(** ** Further runs in the toy window *)

Module ToyMore.
Import Toy.
#[local] Open Scope float_scope.

Lemma close_holes_idempotent_witness :
  @close_holes shapely (GeomMultiPolygon [islet; donut]) (1 # 8) = Ok donut
  /\ @close_holes shapely (GeomPolygon donut) (1 # 8) = Ok donut.
Proof.
  assert (Hrun : @close_holes shapely (GeomMultiPolygon [islet; donut]) (1 # 8)
                 = Ok donut) by reflexivity.
  split; [exact Hrun |].
  exact (proj1 (@close_holes_idempotent shapely _ _ _ Hrun)).
Defined.

Lemma close_holes_keeps_sublist_witness :
  @largest_part shapely (GeomMultiPolygon [islet; donut]) = Ok donut
  /\ @close_holes shapely (GeomMultiPolygon [islet; donut]) 1
     = Ok (mkPolygon (exterior donut) [])
  /\ sublist [] (interiors donut).
Proof.
  assert (Hp : @largest_part shapely (GeomMultiPolygon [islet; donut]) = Ok donut)
    by reflexivity.
  assert (Hrun : @close_holes shapely (GeomMultiPolygon [islet; donut]) 1
                 = Ok (mkPolygon (exterior donut) [])) by reflexivity.
  split; [exact Hp |]. split; [exact Hrun |].
  exact (proj2 (@close_holes_keeps_sublist shapely _ _ _ _ Hp Hrun)).
Defined.

Lemma close_holes_threshold_monotone_witness :
  ((1 # 8) <= 1)%Q
  /\ @close_holes shapely (GeomPolygon donut) (1 # 8) = Ok donut
  /\ @close_holes shapely (GeomPolygon donut) 1 = Ok (mkPolygon (exterior donut) [])
  /\ sublist [] (interiors donut).
Proof.
  assert (Hle : ((1 # 8) <= 1)%Q) by (by vm_compute).
  assert (H1 : @close_holes shapely (GeomPolygon donut) (1 # 8) = Ok donut)
    by reflexivity.
  assert (H2 : @close_holes shapely (GeomPolygon donut) 1
               = Ok (mkPolygon (exterior donut) [])) by reflexivity.
  split; [exact Hle |]. split; [exact H1 |]. split; [exact H2 |].
  refine (@close_holes_threshold_monotone shapely _ _ _ _ _ Hle _ _ H1 H2);
    by vm_compute.
Defined.

Lemma fill_geopandas_idempotent_witness :
  @fill_geopandas shapely [GeomPolygon donut; GeomMultiPolygon [islet; donut]] 1
  = Ok [mkPolygon (exterior donut) []; mkPolygon (exterior donut) []]
  /\ @fill_geopandas shapely
       (map GeomPolygon [mkPolygon (exterior donut) []; mkPolygon (exterior donut) []]) 1
     = Ok [mkPolygon (exterior donut) []; mkPolygon (exterior donut) []].
Proof.
  assert (Hrun : @fill_geopandas shapely
                   [GeomPolygon donut; GeomMultiPolygon [islet; donut]] 1
                 = Ok [mkPolygon (exterior donut) []; mkPolygon (exterior donut) []])
    by reflexivity.
  split; [exact Hrun |].
  exact (@fill_geopandas_idempotent shapely _ _ _ Hrun).
Defined.

Lemma toy_masking :
  mask_accumulation 3 3 mask0 accum0 = Ok (acc masked0).
Proof. reflexivity. Defined.

Lemma toy_shape : has_shape (3, 3)%nat accum0.
Proof. split; [reflexivity | repeat constructor]. Defined.

Lemma masking_keeps_shape_and_inside_witness :
  mask_accumulation 3 3 mask0 accum0 = Ok (acc masked0)
  /\ has_shape (3, 3)%nat accum0
  /\ has_shape (3, 3)%nat (acc masked0).
Proof.
  split; [exact toy_masking |]. split; [exact toy_shape |].
  exact (proj1 (masking_keeps_shape_and_inside 3 3 mask0 accum0 (acc masked0) (3, 3)%nat
                  toy_masking toy_shape)).
Defined.

Lemma masking_idempotent_witness :
  mask_accumulation 3 3 mask0 accum0 = Ok (acc masked0)
  /\ mask_accumulation 3 3 mask0 (acc masked0) = Ok (acc masked0).
Proof.
  split; [exact toy_masking |].
  exact (masking_idempotent 3 3 mask0 accum0 (acc masked0) toy_masking).
Defined.

Lemma masking_creates_no_stream_cell_witness :
  mask_accumulation 3 3 mask0 accum0 = Ok (acc masked0)
  /\ (0 <= 50)%Z
  /\ lookup2 (stream_mask (acc masked0) 50) 1 1 = Some true
  /\ lookup2 (stream_mask accum0 50) 1 1 = Some true.
Proof.
  split; [exact toy_masking |]. split; [lia |]. split; [reflexivity |].
  refine (proj2 (masking_creates_no_stream_cell 3 3 mask0 accum0 (acc masked0) 50 1 1
                   toy_masking _ eq_refl)).
  lia.
Defined.

Lemma missing_flowdir_raises_witness :
  @largest_part shapely (GeomMultiPolygon [islet; donut]) = Ok donut
  /\ exterior donut <> []
  /\ @get_subdivided_merit_polygon shapely (pysheds_on (fun _ => false) accum0 []) config
       "w1"%string 11%Z 19 10 (GeomMultiPolygon [islet; donut]) true
     = Raise (Exception
         "Could not find flow flow direction raster: data/flowdir/flowdir11.tif"%string).
Proof.
  assert (Hp : @largest_part shapely (GeomMultiPolygon [islet; donut]) = Ok donut)
    by reflexivity.
  assert (Hring : exterior donut <> []) by discriminate.
  split; [exact Hp |]. split; [exact Hring |].
  exact (@missing_flowdir_raises shapely (pysheds_on (fun _ => false) accum0 []) config
           "w1"%string 11%Z 19 10 (GeomMultiPolygon [islet; donut]) true donut
           Hp Hring eq_refl).
Defined.

Lemma missing_accumulation_raises_witness :
  @isfile (pysheds_on only_flowdir accum0 []) (fdir_fname config 11) = true
  /\ @isfile (pysheds_on only_flowdir accum0 []) (accum_fname config 11) = false
  /\ @get_subdivided_merit_polygon shapely (pysheds_on only_flowdir accum0 []) config
       "w1"%string 11%Z 19 10 (GeomPolygon donut) true
     = Raise (Exception
         "Could not find accumulation raster: data/accum/accum11.tif"%string).
Proof.
  split; [reflexivity |]. split; [reflexivity |].
  exact (@missing_accumulation_raises shapely (pysheds_on only_flowdir accum0 []) config
           "w1"%string 11%Z 19 10 (GeomPolygon donut) true donut grid0 mask0
           eq_refl eq_refl eq_refl eq_refl eq_refl).
Defined.

Lemma sentinel_only_from_traversal_witness :
  run accum0 true [] 19 10 true = Ok (None, 10.5, 19.5)
  /\ exists grid d e,
       @masked_grid shapely (pysheds accum0 true []) config 11%Z (GeomPolygon donut)
       = Ok grid
       /\ @snap_pour_point (pysheds accum0 true []) grid 19 10 true = Ok ((10.5, 19.5), d)
       /\ @try_catchment (pysheds accum0 true []) grid 10.5 19.5 = Raise e.
Proof.
  assert (Hrun : run accum0 true [] 19 10 true = Ok (None, 10.5, 19.5)) by reflexivity.
  split; [exact Hrun |].
  exact (@sentinel_only_from_traversal shapely (pysheds accum0 true []) config
           "w1"%string 11%Z 19 10 (GeomPolygon donut) true 10.5 19.5 Hrun).
Defined.

(** The three steps that the toy runs share: masking, the snap of the
    outlet (lat 19, lng 10) and a traversal that returns. *)
Lemma toy_steps (shapes : list (Shape * Z)) :
  @masked_grid shapely (pysheds accum0 false shapes) config 11%Z (GeomPolygon donut)
  = Ok masked0
  /\ @snap_pour_point (pysheds accum0 false shapes) masked0 19 10 true
     = Ok ((10.5, 19.5), dist2 (10.5, 19.5) (10, 19))
  /\ @try_catchment (pysheds accum0 false shapes) masked0 10.5 19.5 = Ok masked0.
Proof. repeat split; reflexivity. Defined.

(** A run in which [polygonize] raises, and a run with two shapes in which
    [unary_union] raises: both exceptions leave the call. *)
Lemma faults_after_traversal_propagate_witness :
  @polygonize (pysheds_unpolygonized accum0) masked0 = Raise (LibraryError "ValueError")
  /\ @get_subdivided_merit_polygon shapely (pysheds_unpolygonized accum0) config
       "w1"%string 11%Z 19 10 (GeomPolygon donut) true
     = Raise (LibraryError "ValueError")
  /\ @unary_union shapely_disunited
       [mkPolygon (square 10 19 1) []; mkPolygon (square 11 19 0.5) []]
     = Raise (LibraryError "TopologicalError")
  /\ @get_subdivided_merit_polygon shapely_disunited
       (pysheds accum0 false [(shape0, 1%Z); (shape1, 1%Z)]) config
       "w1"%string 11%Z 19 10 (GeomPolygon donut) true
     = Raise (LibraryError "TopologicalError").
Proof.
  split; [reflexivity |]. split; [| split; [reflexivity |]].
  - exact (proj1 (@faults_after_traversal_propagate shapely (pysheds_unpolygonized accum0)
                    config "w1"%string 11%Z 19 10 (GeomPolygon donut) true
                    masked0 masked0 10.5 19.5 (dist2 (10.5, 19.5) (10, 19))
                    eq_refl eq_refl eq_refl)
                 (LibraryError "ValueError") eq_refl).
  - refine (proj2 (@faults_after_traversal_propagate shapely_disunited
                     (pysheds accum0 false [(shape0, 1%Z); (shape1, 1%Z)])
                     config "w1"%string 11%Z 19 10 (GeomPolygon donut) true
                     masked0 masked0 10.5 19.5 (dist2 (10.5, 19.5) (10, 19))
                     eq_refl eq_refl eq_refl)
                  [(shape0, 1%Z); (shape1, 1%Z)]
                  [mkPolygon (square 10 19 1) []; mkPolygon (square 11 19 0.5) []]
                  2%nat (LibraryError "TopologicalError") eq_refl eq_refl _ eq_refl).
    simpl. lia.
Defined.

Lemma shape_without_ring_raises_witness :
  (shape_empty, 0%Z) ∈ [(shape0, 1%Z); (shape_empty, 0%Z)]
  /\ run accum0 false [(shape0, 1%Z); (shape_empty, 0%Z)] 19 10 true = Raise IndexError.
Proof.
  assert (Hin : (shape_empty, 0%Z) ∈ [(shape0, 1%Z); (shape_empty, 0%Z)])
    by (right; left).
  destruct (toy_steps [(shape0, 1%Z); (shape_empty, 0%Z)]) as (Hgrid & Hsnap & Hcatch).
  split; [exact Hin |].
  exact (@shape_without_ring_raises shapely
           (pysheds accum0 false [(shape0, 1%Z); (shape_empty, 0%Z)]) config
           "w1"%string 11%Z 19 10 (GeomPolygon donut) true masked0 masked0
           10.5 19.5 _ _ (shape_empty, 0%Z) Hgrid Hsnap Hcatch eq_refl Hin eq_refl).
Defined.

Lemma several_shapes_union_of_exteriors_witness :
  (1 < length [(shape_holed, 1%Z); (shape1, 1%Z)])%nat
  /\ exists polys,
       Forall2 exterior_of_shape [(shape_holed, 1%Z); (shape1, 1%Z)] polys
       /\ run accum0 false [(shape_holed, 1%Z); (shape1, 1%Z)] 19 10 true
          = (shapely_polygon <- @unary_union shapely polys ;;
             Ok (Some shapely_polygon, 19.5 - Window.halfpix, 10.5 + Window.halfpix)).
Proof.
  assert (Hlen : (1 < length [(shape_holed, 1%Z); (shape1, 1%Z)])%nat) by (simpl; lia).
  destruct (toy_steps [(shape_holed, 1%Z); (shape1, 1%Z)]) as (Hgrid & Hsnap & Hcatch).
  split; [exact Hlen |].
  refine (@several_shapes_union_of_exteriors shapely
            (pysheds accum0 false [(shape_holed, 1%Z); (shape1, 1%Z)]) config
            "w1"%string 11%Z 19 10 (GeomPolygon donut) true masked0 masked0
            10.5 19.5 _ _ Hgrid Hsnap Hcatch eq_refl Hlen _).
  repeat constructor; discriminate.
Defined.

Lemma single_shape_exterior_only_witness :
  coordinates shape_holed = [square 10 19 1; square 10.25 19.25 0.5]
  /\ run accum0 false [(shape_holed, 1%Z)] 19 10 true
     = Ok (Some (GeomPolygon (mkPolygon (square 10 19 1) [])),
           19.5 - Window.halfpix, 10.5 + Window.halfpix).
Proof.
  destruct (toy_steps [(shape_holed, 1%Z)]) as (Hgrid & Hsnap & Hcatch).
  split; [reflexivity |].
  exact (@single_shape_exterior_only shapely (pysheds accum0 false [(shape_holed, 1%Z)])
           config "w1"%string 11%Z 19 10 (GeomPolygon donut) true masked0 masked0
           10.5 19.5 _ shape_holed 1%Z _ _ Hgrid Hsnap Hcatch eq_refl eq_refl).
Defined.

Lemma single_catchment_snaps_nearer_witness :
  @snap_pour_point (pysheds accum0 false []) masked0 20 11 false
  = Ok ((10.5, 19.5), dist2 (10.5, 19.5) (11, 20))
  /\ exists p1 d1,
       @snap_pour_point (pysheds accum0 false []) masked0 20 11 true = Ok (p1, d1)
       /\ Qle d1 (dist2 (10.5, 19.5) (11, 20)).
Proof.
  assert (Hsnap : @snap_pour_point (pysheds accum0 false []) masked0 20 11 false
                  = Ok ((10.5, 19.5), dist2 (10.5, 19.5) (11, 20))) by reflexivity.
  split; [exact Hsnap |].
  exact (@single_catchment_snaps_nearer (pysheds accum0 false []) masked0 20 11 _ _ Hsnap).
Defined.

End ToyMore.
